(** * lunar-birthdays: lunar birthdays to iCalendar events

    A shallow embedding of the two scripts of the repository,

    - [lunar_birthdays.py]: the batch pipeline (one concrete event per
      record and year, one output file per window of years), and
    - [main.py]: the single-conversion pipeline (one yearly-repeating
      event per record, one output file),

    followed by the properties of the pipelines.

    The scripts print, read a CSV file, write calendar files, read the
    wall clock and leave through [sys.exit]; all of that is modelled by
    a state-and-exception monad over an explicit [world].  The
    third-party packages ([lunarcalendar], [datetime], the builtin
    [int]) are not part of the repository and enter as the operations of
    the class [Libraries]. *)

From Stdlib Require Import ZArith List String Ascii Lia Bool DecimalString.
From Stdlib Require Import Permutation DecimalPos DecimalZ.
Import ListNotations.
Open Scope string_scope.
Open Scope list_scope.
Open Scope Z_scope.

(** Python's [+] on strings and the pieces of an f-string. *)
Infix "+++" := String.append (right associativity, at level 60).

(* ===================================================================== *)
(** ** Python builtins *)

(** [str(n)] for an [int], which is also what [f"{n}"] prints. *)
Definition str (n : Z) : string := NilZero.string_of_int (Z.to_int n).

(** [len(range(start, stop, step))] for a non-zero [step]: the number of
    [i >= 0] with [start + i*step] strictly before [stop] in the
    direction of [step]. *)
Definition range_len (start stop step : Z) : Z :=
  if 0 <? step then
    if start <? stop then (stop - start - 1) / step + 1 else 0
  else if step <? 0 then
    if stop <? start then (start - stop - 1) / (- step) + 1 else 0
  else 0.

(** The elements of [range(start, stop, step)], [step <> 0]: the [i]-th
    one is [start + i*step]. *)
Definition range_elems (start stop step : Z) : list Z :=
  map (fun i => start + Z.of_nat i * step)
      (seq 0 (Z.to_nat (range_len start stop step))).

(** [range(start, stop)]. *)
Definition range (start stop : Z) : list Z := range_elems start stop 1.

(** The exceptions the scripts meet.  [SystemExit] is what [sys.exit]
    raises; [ValueError] carries [str(e)]. *)
Inductive exn : Type :=
| SystemExit (code : Z)
| FileNotFoundError
| ValueError (msg : string)
| DateNotExist.

(** What a computation ends with: a value, or an exception on its way
    up. *)
Inductive outcome (A : Type) : Type :=
| Return (a : A)
| Raise (e : exn).
Arguments Return {A} a.
Arguments Raise {A} e.

(** The exit status of the interpreter for the outcome of the top-level
    script: 0 when it runs to its end, the code of [sys.exit], and 1
    for any other exception (after the traceback). *)
Definition exit_status {A : Type} (r : outcome A) : Z :=
  match r with
  | Return _ => 0
  | Raise (SystemExit code) => code
  | Raise _ => 1
  end.

(* ===================================================================== *)
(** ** The third-party packages *)

(** [Lunar(year, month, day, isleap)] of [lunarcalendar]. *)
Record Lunar : Type := mkLunar {
  lunar_year : Z;
  lunar_month : Z;
  lunar_day : Z;
  isleap : bool
}.

(** The operations the scripts call in packages outside the repository.

    - [date], [datetime]: the values of [datetime.date] and
      [datetime.datetime];
    - [date_add_days d n] is [d + timedelta(days=n)];
    - [Lunar2Solar l] is [Converter.Lunar2Solar(l).to_date()]: the
      solar date, or [None] when the package raises [DateNotExist]
      (the conversion is taken to have these two outcomes only);
    - [int s] is the builtin [int(s)] on a string: the integer, or the
      text of the [ValueError];
    - [now n] is what the [n]-th call of [datetime.now()] of the run
      returns, and [dt_year] its [.year]. *)
Class Libraries : Type := {
  date : Type;
  datetime : Type;
  date_add_days : date -> Z -> date;
  Lunar2Solar : Lunar -> option date;
  int : string -> Z + string;
  now : nat -> datetime;
  dt_year : datetime -> Z
}.

(* ===================================================================== *)
(** ** icalendar components *)

Section Runtime.
Context {L : Libraries}.

(** The values the scripts store in a component. *)
Inductive value : Type :=
| vText (s : string)
| vDate (d : date)
| vDatetime (t : datetime)
| vRecur (rule : list (string * string)).

(** One property of a component: [c.add(name, value, parameters)]. *)
Record property : Type := mkProperty {
  prop_name : string;
  prop_value : value;
  prop_parameters : list (string * string)
}.

(** [Event()]: its properties in the order they were added. *)
Definition Event : Type := list property.

(** [Calendar()]: its own properties and the events added to it, in
    order. *)
Record Calendar : Type := mkCalendar {
  properties : list property;
  subcomponents : list Event
}.

Definition new_Event : Event := [].
Definition new_Calendar : Calendar := mkCalendar [] [].

(** [event.add(name, value, parameters=...)]. *)
Definition event_add (e : Event) (name : string) (v : value)
    (parameters : list (string * string)) : Event :=
  e ++ [mkProperty name v parameters].

(** [cal.add(name, value)]. *)
Definition cal_add (cal : Calendar) (name : string) (v : value) : Calendar :=
  mkCalendar (properties cal ++ [mkProperty name v []]) (subcomponents cal).

(** [cal.add_component(event)]. *)
Definition add_component (cal : Calendar) (e : Event) : Calendar :=
  mkCalendar (properties cal) (subcomponents cal ++ [e]).

(** The value of the first property called [name], as a reader of the
    event finds it. *)
Fixpoint get (e : Event) (name : string) : option value :=
  match e with
  | [] => None
  | p :: rest =>
      if String.eqb (prop_name p) name then Some (prop_value p)
      else get rest name
  end.

(* ===================================================================== *)
(** ** The world and the monad of the scripts *)

(** A row as [csv.DictReader] hands it over, at the type the scripts
    cast it to ([BirthdayRow]): four strings.  A file whose header lacks
    one of the four columns, or a row shorter than its header, is
    outside this type. *)
Record BirthdayRow : Type := mkRow {
  row_name : string;
  row_year : string;
  row_month : string;
  row_day : string
}.

(** A loaded birthday, the dict with the keys ['name'], ['year'],
    ['month'] and ['day'] that the loader builds from a row. *)
Record Birthday : Type := mkBirthday {
  birthday_name : string;
  birthday_year : Z;
  birthday_month : Z;
  birthday_day : Z
}.

(** What a run can see and change:
    - [csv_files path]: the rows of the CSV file at [path], [None] when
      there is no such file;
    - [stdout]: the lines printed so far;
    - [written]: the files written so far, oldest first, each with the
      calendar whose serialisation ([cal.to_ical()]) went into it;
    - [clock_reads]: how many times the wall clock has been read. *)
Record world : Type := mkWorld {
  csv_files : string -> option (list BirthdayRow);
  stdout : list string;
  written : list (string * Calendar);
  clock_reads : nat
}.

Definition M (A : Type) : Type := world -> outcome A * world.

Definition ret {A : Type} (a : A) : M A := fun w => (Return a, w).

Definition bind {A B : Type} (c : M A) (k : A -> M B) : M B :=
  fun w =>
    match c w with
    | (Return a, w') => k a w'
    | (Raise e, w') => (Raise e, w')
    end.

Definition raise {A : Type} (e : exn) : M A := fun w => (Raise e, w).

(** [try: c except ...: handler]; a handler re-raises what none of its
    clauses matches. *)
Definition try_except {A : Type} (c : M A) (handler : exn -> M A) : M A :=
  fun w =>
    match c w with
    | (Return a, w') => (Return a, w')
    | (Raise e, w') => handler e w'
    end.

(** [print(line)]. *)
Definition print (line : string) : M unit :=
  fun w =>
    (Return tt,
     mkWorld (csv_files w) (stdout w ++ [line]) (written w) (clock_reads w)).

(** [sys.exit(code)]. *)
Definition sys_exit {A : Type} (code : Z) : M A := raise (SystemExit code).

(** [open(path, mode='r', ...)] followed by [csv.DictReader]. *)
Definition open_csv (path : string) : M (list BirthdayRow) :=
  fun w =>
    match csv_files w path with
    | Some rows => (Return rows, w)
    | None => (Raise FileNotFoundError, w)
    end.

(** [with open(path, 'wb') as f: f.write(cal.to_ical())]; the file is
    taken to be writable. *)
Definition write_ical (path : string) (cal : Calendar) : M unit :=
  fun w =>
    (Return tt,
     mkWorld (csv_files w) (stdout w) (written w ++ [(path, cal)])
             (clock_reads w)).

(** [datetime.now()]. *)
Definition datetime_now : M datetime :=
  fun w =>
    (Return (now (clock_reads w)),
     mkWorld (csv_files w) (stdout w) (written w) (S (clock_reads w))).

(** [int(s)], raising [ValueError]. *)
Definition int_of (s : string) : M Z :=
  match int s with
  | inl n => ret n
  | inr msg => raise (ValueError msg)
  end.

(** [Converter.Lunar2Solar(lunar).to_date()], raising [DateNotExist]. *)
Definition lunar_to_solar (lunar : Lunar) : M date :=
  match Lunar2Solar lunar with
  | Some d => ret d
  | None => raise DateNotExist
  end.

(** [range(start, stop, step)] with the [ValueError] of a zero step. *)
Definition range3 (start stop step : Z) : M (list Z) :=
  if step =? 0 then raise (ValueError "range() arg 3 must not be zero")
  else ret (range_elems start stop step).

(** [for x in xs: body], where the body updates the local object [s]. *)
Fixpoint for_each {A S : Type} (xs : list A) (body : S -> A -> M S) (s : S)
    : M S :=
  match xs with
  | [] => ret s
  | x :: rest => bind (body s x) (for_each rest body)
  end.

End Runtime.

Notation "x <- c ;; k" := (bind c (fun x => k))
  (at level 61, c at next level, right associativity).
Notation "c ;;; k" := (bind c (fun _ => k))
  (at level 61, right associativity).

(* ===================================================================== *)
(** ** [lunar_birthdays.py]: the batch pipeline *)

Module lunar_birthdays.
Section Script.
Context {L : Libraries}.

(** [read_lunar_birthdays(file_path)]. *)
Definition read_lunar_birthdays (file_path : string) : M (list Birthday) :=
  try_except
    (reader <- open_csv file_path ;;
     for_each reader
       (fun birthdays birthday_row =>
          y <- int_of (row_year birthday_row) ;;
          m <- int_of (row_month birthday_row) ;;
          d <- int_of (row_day birthday_row) ;;
          ret (birthdays ++ [mkBirthday (row_name birthday_row) y m d]))
       [])
    (fun e =>
       match e with
       | FileNotFoundError =>
           print ("Error: File '" +++ file_path +++ "' not found.") ;;;
           sys_exit 1
       | ValueError msg =>
           print ("Error: Invalid data in CSV file. " +++ msg) ;;;
           sys_exit 1
       | _ => raise e
       end).

(** [create_birthday_event(birthday, year)]: the event of [birthday] in
    the lunar year [year].  The [rrule] line is commented out in this
    script. *)
Definition create_birthday_event (birthday : Birthday) (year : Z) : M Event :=
  let lunar_date :=
    mkLunar year (birthday_month birthday) (birthday_day birthday) false in
  solar_date <- lunar_to_solar lunar_date ;;
  let event := new_Event in
  let event :=
    event_add event "summary" (vText (birthday_name birthday +++ "'s birthday"))
              [("CHARSET", "UTF-8")] in
  let event := event_add event "dtstart" (vDate solar_date) [] in
  let event :=
    event_add event "dtend" (vDate (date_add_days solar_date 1)) [] in
  stamp <- datetime_now ;;
  let event := event_add event "dtstamp" (vDatetime stamp) [] in
  ret event.

(** The line [generate_ics] prints for a date that does not exist. *)
Definition warning (birthday : Birthday) : string :=
  "Warning: Invalid lunar date: " +++ str (birthday_year birthday) +++ "-"
  +++ str (birthday_month birthday) +++ "-" +++ str (birthday_day birthday).

(** [generate_ics(birthdays, output_file_path, start_year, end_year)]. *)
Definition generate_ics (birthdays : list Birthday) (output_file_path : string)
    (start_year end_year : Z) : M unit :=
  let cal := new_Calendar in
  let cal := cal_add cal "prodid" (vText "-//Haeward//Lunar Birthdays//CN") in
  let cal := cal_add cal "version" (vText "2.0") in
  let cal := cal_add cal "calscale" (vText "GREGORIAN") in
  let cal := cal_add cal "charset" (vText "UTF-8") in
  cal <- for_each birthdays
           (fun cal birthday =>
              for_each (range start_year (end_year + 1))
                (fun cal year =>
                   try_except
                     (event <- create_birthday_event birthday year ;;
                      ret (add_component cal event))
                     (fun e =>
                        match e with
                        | DateNotExist => print (warning birthday) ;;; ret cal
                        | _ => raise e
                        end))
                cal)
           cal ;;
  write_ical output_file_path cal.

(** The command line after [argparse] has split it: the two positional
    arguments and the three options, [None] for an option that was not
    given.  (A command line that [argparse] rejects never reaches the
    body of [main].) *)
Record command_line : Type := mkCommandLine {
  given_input_csv : string;
  given_output_ics_prefix : string;
  given_years : option Z;
  given_start_year : option Z;
  given_batch_size : option Z
}.

(** The namespace [parser.parse_args()] returns. *)
Record Namespace : Type := mkNamespace {
  input_csv : string;
  output_ics_prefix : string;
  years : Z;
  start_year : Z;
  batch_size : Z
}.

(** The parser [main] declares: the defaults are 50 years, the current
    year and 50 years per file. *)
Definition parse_args (current_year : Z) (argv : command_line) : Namespace :=
  mkNamespace
    (given_input_csv argv)
    (given_output_ics_prefix argv)
    (match given_years argv with Some n => n | None => 50 end)
    (match given_start_year argv with Some n => n | None => current_year end)
    (match given_batch_size argv with Some n => n | None => 50 end).

(** [main()]. *)
Definition main (argv : command_line) : M unit :=
  t <- datetime_now ;;
  let current_year := dt_year t in
  let args := parse_args current_year argv in
  lunar_birthdays <- read_lunar_birthdays (input_csv args) ;;
  starts <- range3 (start_year args) (start_year args + years args)
                   (batch_size args) ;;
  for_each starts
    (fun _ year =>
       let end_year :=
         Z.min (year + batch_size args - 1)
               (start_year args + years args - 1) in
       let output_file_path :=
         if year =? end_year then
           output_ics_prefix args +++ "_" +++ str year +++ ".ics"
         else
           output_ics_prefix args +++ "_" +++ str year +++ "-"
           +++ str end_year +++ ".ics" in
       generate_ics lunar_birthdays output_file_path year end_year ;;;
       print ("ICS file generated successfully: " +++ output_file_path))
    tt.

End Script.
End lunar_birthdays.

(* ===================================================================== *)
(** ** [main.py]: the single-conversion pipeline *)

Module main.
Section Script.
Context {L : Libraries}.

(** [read_lunar_birthdays(file_path)], the same loader as in the batch
    script. *)
Definition read_lunar_birthdays (file_path : string) : M (list Birthday) :=
  try_except
    (reader <- open_csv file_path ;;
     for_each reader
       (fun birthdays birthday_row =>
          y <- int_of (row_year birthday_row) ;;
          m <- int_of (row_month birthday_row) ;;
          d <- int_of (row_day birthday_row) ;;
          ret (birthdays ++ [mkBirthday (row_name birthday_row) y m d]))
       [])
    (fun e =>
       match e with
       | FileNotFoundError =>
           print ("Error: File '" +++ file_path +++ "' not found.") ;;;
           sys_exit 1
       | ValueError msg =>
           print ("Error: Invalid data in CSV file. " +++ msg) ;;;
           sys_exit 1
       | _ => raise e
       end).

(** [create_birthday_event(birthday)]: one event in the record's own
    year, repeating yearly. *)
Definition create_birthday_event (birthday : Birthday) : M Event :=
  let lunar_date :=
    mkLunar (birthday_year birthday) (birthday_month birthday)
            (birthday_day birthday) false in
  solar_date <- lunar_to_solar lunar_date ;;
  let event := new_Event in
  let event :=
    event_add event "summary" (vText (birthday_name birthday +++ "'s birthday"))
              [] in
  let event := event_add event "dtstart" (vDate solar_date) [] in
  let event :=
    event_add event "dtend" (vDate (date_add_days solar_date 1)) [] in
  let event := event_add event "rrule" (vRecur [("freq", "yearly")]) [] in
  stamp <- datetime_now ;;
  let event := event_add event "dtstamp" (vDatetime stamp) [] in
  ret event.

(** The line [generate_ics_file] prints for a date that does not
    exist. *)
Definition warning (birthday : Birthday) : string :=
  "Warning: Invalid lunar date: " +++ str (birthday_year birthday) +++ "-"
  +++ str (birthday_month birthday) +++ "-" +++ str (birthday_day birthday).

(** [generate_ics_file(birthdays, output_file_path)]. *)
Definition generate_ics_file (birthdays : list Birthday)
    (output_file_path : string) : M unit :=
  let cal := new_Calendar in
  let cal := cal_add cal "prodid" (vText "-//Haeward//Lunar Birthdays//CN") in
  let cal := cal_add cal "version" (vText "2.0") in
  cal <- for_each birthdays
           (fun cal birthday =>
              try_except
                (event <- create_birthday_event birthday ;;
                 ret (add_component cal event))
                (fun e =>
                   match e with
                   | DateNotExist => print (warning birthday) ;;; ret cal
                   | _ => raise e
                   end))
           cal ;;
  write_ical output_file_path cal.

(** [main(input_csv_path, output_ics_path)]. *)
Definition main (input_csv_path output_ics_path : string) : M unit :=
  lunar_birthdays <- read_lunar_birthdays input_csv_path ;;
  generate_ics_file lunar_birthdays output_ics_path ;;;
  print ("ICS file generated successfully: " +++ output_ics_path).

(** The [if __name__ == '__main__'] block, on [sys.argv]. *)
Definition script (sys_argv : list string) : M unit :=
  if negb (Nat.eqb (List.length sys_argv) 3) then
    print "Usage: python main.py <input_csv> <output_ics>" ;;;
    sys_exit 1
  else
    let input_csv := nth 1 sys_argv "" in
    let output_ics := nth 2 sys_argv "" in
    main input_csv output_ics.

End Script.
End main.

(* ===================================================================== *)
(** ** The vocabulary of the properties *)

Section Vocabulary.
Context {L : Libraries}.

(** The projection of a record into a lunar year: the solar date of the
    record's month and day in that year, or [None] when that lunar date
    does not exist. *)
Definition project (birthday : Birthday) (year : Z) : option date :=
  Lunar2Solar
    (mkLunar year (birthday_month birthday) (birthday_day birthday) false).

(** The (record, year) pairs of a run of the batch generator, records
    outermost. *)
Definition pairs (birthdays : list Birthday) (start_year end_year : Z)
    : list (Birthday * Z) :=
  list_prod birthdays (range start_year (end_year + 1)).

(** [e] is a one-day, all-day birthday event of [birthday] on the solar
    date [d]. *)
Definition birthday_event_on (birthday : Birthday) (d : date) (e : Event)
    : Prop :=
  get e "summary" = Some (vText (birthday_name birthday +++ "'s birthday"))
  /\ get e "dtstart" = Some (vDate d)
  /\ get e "dtend" = Some (vDate (date_add_days d 1)).

(** An event without its creation stamp. *)
Definition unstamped (e : Event) : Event :=
  filter (fun p => negb (String.eqb (prop_name p) "dtstamp")) e.

(** The event the batch script builds for [birthday] on [d] when the
    clock shows [stamp]. *)
Definition batch_event (birthday : Birthday) (d : date) (stamp : datetime)
    : Event :=
  [ mkProperty "summary" (vText (birthday_name birthday +++ "'s birthday"))
               [("CHARSET", "UTF-8")];
    mkProperty "dtstart" (vDate d) [];
    mkProperty "dtend" (vDate (date_add_days d 1)) [];
    mkProperty "dtstamp" (vDatetime stamp) [] ].

(** The same event without its stamp. *)
Definition batch_event_fields (birthday : Birthday) (d : date) : Event :=
  [ mkProperty "summary" (vText (birthday_name birthday +++ "'s birthday"))
               [("CHARSET", "UTF-8")];
    mkProperty "dtstart" (vDate d) [];
    mkProperty "dtend" (vDate (date_add_days d 1)) [] ].

(** The events of a list of (record, year) pairs, the first of them
    stamped with the [t]-th reading of the clock: a pair whose
    projection fails contributes nothing. *)
Fixpoint batch_events (ps : list (Birthday * Z)) (t : nat) : list Event :=
  match ps with
  | [] => []
  | (birthday, year) :: rest =>
      match project birthday year with
      | Some d => batch_event birthday d (now t) :: batch_events rest (S t)
      | None => batch_events rest t
      end
  end.

(** The pairs whose projection succeeds, each with its solar date. *)
Definition successes (ps : list (Birthday * Z)) : list (Birthday * Z * date) :=
  flat_map
    (fun p =>
       match project (fst p) (snd p) with
       | Some d => [(fst p, snd p, d)]
       | None => []
       end)
    ps.

(** The pairs whose projection fails. *)
Definition failures (ps : list (Birthday * Z)) : list (Birthday * Z) :=
  filter
    (fun p =>
       match project (fst p) (snd p) with Some _ => false | None => true end)
    ps.

(** The header of every calendar the batch script writes. *)
Definition batch_header : list property :=
  [ mkProperty "prodid" (vText "-//Haeward//Lunar Birthdays//CN") [];
    mkProperty "version" (vText "2.0") [];
    mkProperty "calscale" (vText "GREGORIAN") [];
    mkProperty "charset" (vText "UTF-8") [] ].

(** The year windows of the file batcher: one per start the loop of
    [main] visits, with the end [main] computes for it. *)
Definition windows (start_year years batch_size : Z) : list (Z * Z) :=
  map
    (fun year =>
       (year, Z.min (year + batch_size - 1) (start_year + years - 1)))
    (range_elems start_year (start_year + years) batch_size).

(** The last year of the window that [main] starts at [year]. *)
Definition window_end (args : lunar_birthdays.Namespace) (year : Z) : Z :=
  Z.min (year + lunar_birthdays.batch_size args - 1)
        (lunar_birthdays.start_year args + lunar_birthdays.years args - 1).

(** The path [main] writes the window starting at [year] to. *)
Definition window_path (args : lunar_birthdays.Namespace) (year : Z) : string :=
  if year =? window_end args year then
    lunar_birthdays.output_ics_prefix args +++ "_" +++ str year +++ ".ics"
  else
    lunar_birthdays.output_ics_prefix args +++ "_" +++ str year +++ "-"
    +++ str (window_end args year) +++ ".ics".

(** The years of a window, both ends included. *)
Definition window_years (win : Z * Z) : list Z :=
  range (fst win) (snd win + 1).

(** Windows that follow one another from [lo] up to [hi]: each starts
    right after the one before it ends, none is empty, and the last ends
    at [hi]. *)
Fixpoint chained (lo : Z) (wins : list (Z * Z)) (hi : Z) : Prop :=
  match wins with
  | [] => lo = hi + 1
  | (a, b) :: rest => a = lo /\ a <= b /\ b <= hi /\ chained (b + 1) rest hi
  end.

(** The file name of a window as the design states it: the single year
    for a window of one year, both ends with a dash otherwise. *)
Definition window_file_name (prefix : string) (win : Z * Z) : string :=
  if Nat.eqb (List.length (window_years win)) 1 then
    prefix +++ "_" +++ str (fst win) +++ ".ics"
  else
    prefix +++ "_" +++ str (fst win) +++ "-" +++ str (snd win) +++ ".ics".

(** A row with a field that [int] rejects. *)
Definition unparsable (row : BirthdayRow) : Prop :=
  (exists msg, int (row_year row) = inr msg)
  \/ (exists msg, int (row_month row) = inr msg)
  \/ (exists msg, int (row_day row) = inr msg).

(** The record of a row, or the text of the first [ValueError] among
    its fields, read in the order year, month, day. *)
Definition parse_row (row : BirthdayRow) : Birthday + string :=
  match int (row_year row) with
  | inr msg => inr msg
  | inl y =>
      match int (row_month row) with
      | inr msg => inr msg
      | inl m =>
          match int (row_day row) with
          | inr msg => inr msg
          | inl d => inl (mkBirthday (row_name row) y m d)
          end
      end
  end.

(** The records of a file, or the text of the first [ValueError]. *)
Fixpoint parse_rows (rows : list BirthdayRow) : list Birthday + string :=
  match rows with
  | [] => inl []
  | row :: rest =>
      match parse_row row with
      | inr msg => inr msg
      | inl birthday =>
          match parse_rows rest with
          | inr msg => inr msg
          | inl birthdays => inl (birthday :: birthdays)
          end
      end
  end.

(** The world after one more line on the standard output. *)
Definition printed (w : world) (lines : list string) : world :=
  mkWorld (csv_files w) (stdout w ++ lines) (written w) (clock_reads w).

(** The event the single-conversion script builds. *)
Definition recurring_event (birthday : Birthday) (d : date) (stamp : datetime)
    : Event :=
  [ mkProperty "summary" (vText (birthday_name birthday +++ "'s birthday")) [];
    mkProperty "dtstart" (vDate d) [];
    mkProperty "dtend" (vDate (date_add_days d 1)) [];
    mkProperty "rrule" (vRecur [("freq", "yearly")]) [];
    mkProperty "dtstamp" (vDatetime stamp) [] ].

(** The events of the single-conversion script for a list of records,
    each projected into its own year. *)
Fixpoint recurring_events (birthdays : list Birthday) (t : nat) : list Event :=
  match birthdays with
  | [] => []
  | birthday :: rest =>
      match project birthday (birthday_year birthday) with
      | Some d =>
          recurring_event birthday d (now t) :: recurring_events rest (S t)
      | None => recurring_events rest t
      end
  end.

(** The records whose projection into their own year succeeds, each
    with its solar date. *)
Definition own_year_successes (birthdays : list Birthday)
    : list (Birthday * date) :=
  flat_map
    (fun birthday =>
       match project birthday (birthday_year birthday) with
       | Some d => [(birthday, d)]
       | None => []
       end)
    birthdays.

(** The records whose projection into their own year fails. *)
Definition own_year_failures (birthdays : list Birthday) : list Birthday :=
  filter
    (fun birthday =>
       match project birthday (birthday_year birthday) with
       | Some _ => false
       | None => true
       end)
    birthdays.

(** The header of the calendar the single-conversion script writes. *)
Definition single_header : list property :=
  [ mkProperty "prodid" (vText "-//Haeward//Lunar Birthdays//CN") [];
    mkProperty "version" (vText "2.0") [] ].

(** The load of [path] fails: there is no such file, or one of its rows
    has a field that is not an integer. *)
Definition load_fails (w : world) (path : string) : Prop :=
  csv_files w path = None
  \/ exists rows, csv_files w path = Some rows /\ Exists unparsable rows.

(** The load of [path] succeeds. *)
Definition load_succeeds (w : world) (path : string) : Prop :=
  exists rows,
    csv_files w path = Some rows /\ Forall (fun row => ~ unparsable row) rows.

(** The message the loader prints before it leaves. *)
Definition load_error (w : world) (path : string) : string :=
  match csv_files w path with
  | None => "Error: File '" +++ path +++ "' not found."
  | Some rows =>
      match parse_rows rows with
      | inr msg => "Error: Invalid data in CSV file. " +++ msg
      | inl _ => ""
      end
  end.

(** The world after one more reading of the clock. *)
Definition ticked (w : world) : world :=
  mkWorld (csv_files w) (stdout w) (written w) (S (clock_reads w)).

(** The files the window loop of [main] writes for the starts it
    visits, the first event stamped with the [t]-th reading of the
    clock. *)
Fixpoint window_files (args : lunar_birthdays.Namespace)
    (birthdays : list Birthday) (starts : list Z) (t : nat)
    : list (string * Calendar) :=
  match starts with
  | [] => []
  | year :: rest =>
      let events :=
        batch_events (pairs birthdays year (window_end args year)) t in
      (window_path args year, mkCalendar batch_header events)
      :: window_files args birthdays rest (t + List.length events)
  end.

(** The lines the window loop of [main] prints: for each start the
    warnings of its window, then the line that announces its file. *)
Definition window_lines (args : lunar_birthdays.Namespace)
    (birthdays : list Birthday) (starts : list Z) : list string :=
  flat_map
    (fun year =>
       map (fun p => lunar_birthdays.warning (fst p))
           (failures (pairs birthdays year (window_end args year)))
       ++ ["ICS file generated successfully: " +++ window_path args year])
    starts.

(** All the events of a list of files, in order. *)
Definition events_of (files : list (string * Calendar)) : list Event :=
  flat_map (fun file => subcomponents (snd file)) files.

(** The lunar date the single-conversion script projects for a
    record. *)
Definition own_lunar_date (birthday : Birthday) : Lunar :=
  mkLunar (birthday_year birthday) (birthday_month birthday)
          (birthday_day birthday) false.

(** A warning line that shows the lunar date [l]. *)
Definition warning_for (l : Lunar) : string :=
  "Warning: Invalid lunar date: " +++ str (lunar_year l) +++ "-"
  +++ str (lunar_month l) +++ "-" +++ str (lunar_day l).

(** A decimal digit, and a string of decimal digits. *)
Definition is_digit (c : ascii) : bool :=
  (48 <=? nat_of_ascii c)%nat && (nat_of_ascii c <=? 57)%nat.

Fixpoint all_digits (s : string) : bool :=
  match s with
  | EmptyString => true
  | String c rest => is_digit c && all_digits rest
  end.

(** A string that starts with a character that is not a digit. *)
Definition starts_without_digit (s : string) : Prop :=
  exists c rest, s = String c rest /\ is_digit c = false.

(** The starts the loop of [main] visits. *)
Definition window_starts (args : lunar_birthdays.Namespace) : list Z :=
  range_elems (lunar_birthdays.start_year args)
              (lunar_birthdays.start_year args + lunar_birthdays.years args)
              (lunar_birthdays.batch_size args).

End Vocabulary.

(* ===================================================================== *)
(** ** A stand-in for the packages, to run the scripts on inputs *)

Module sample.

(** A toy lunar calendar: twelve months of thirty days, except that the
    thirtieth day is missing in odd years; a date is a day number. *)
Definition toy_Lunar2Solar (l : Lunar) : option Z :=
  if (1 <=? lunar_month l) && (lunar_month l <=? 12)
     && (1 <=? lunar_day l) && (lunar_day l <=? 30)
     && negb (isleap l)
     && negb ((lunar_day l =? 30) && Z.odd (lunar_year l))
  then Some (lunar_year l * 360 + (lunar_month l - 1) * 30 + lunar_day l)
  else None.

(** Decimal literals only. *)
Definition toy_int (s : string) : Z + string :=
  match NilZero.int_of_string s with
  | Some n => inl (Z.of_int n)
  | None => inr ("invalid literal for int() with base 10: '" +++ s +++ "'")
  end.

#[export] Instance toy : Libraries := {|
  date := Z;
  datetime := nat;
  date_add_days := Z.add;
  Lunar2Solar := toy_Lunar2Solar;
  int := toy_int;
  now := fun n => n;
  dt_year := fun _ => 2024
|}.

(** A world with one CSV file, [birthdays.csv]. *)
Definition world_with (rows : list BirthdayRow) : world :=
  mkWorld
    (fun path => if String.eqb path "birthdays.csv" then Some rows else None)
    [] [] 0.

Definition alice : Birthday := mkBirthday "Alice" 1990 1 15.
Definition bob : Birthday := mkBirthday "Bob" 1985 8 30.
Definition carol : Birthday := mkBirthday "Carol" 2001 3 12.

Definition rows_ok : list BirthdayRow :=
  [mkRow "Alice" "1990" "1" "15"; mkRow "Bob" "1985" "8" "30"].

Definition rows_bad : list BirthdayRow :=
  [mkRow "Alice" "1990" "1" "15"; mkRow "Bob" "1985" "8" "thirty"].

(** Command lines of the batch script: four years from 2024 in files of
    three, a negative count with a negative batch size, and no option
    at all. *)
Definition argv_4_by_3 : lunar_birthdays.command_line :=
  lunar_birthdays.mkCommandLine "birthdays.csv" "out"
    (Some 4) (Some 2024) (Some 3).

Definition argv_backwards : lunar_birthdays.command_line :=
  lunar_birthdays.mkCommandLine "birthdays.csv" "out"
    (Some (-3)) (Some 2024) (Some (-1)).

Definition argv_plain : lunar_birthdays.command_line :=
  lunar_birthdays.mkCommandLine "birthdays.csv" "out" None None None.

End sample.

(* ===================================================================== *)
(** ** Ranges *)

Lemma range_len_nonneg (start stop step : Z) : 0 <= range_len start stop step.
Proof.
  unfold range_len.
  destruct (Z.ltb_spec 0 step) as [Hs | Hs].
  - destruct (Z.ltb_spec start stop) as [H | H]; [| lia].
    assert (0 <= (stop - start - 1) / step) by (apply Z.div_pos; lia). lia.
  - destruct (Z.ltb_spec step 0) as [Hn | Hn]; [| lia].
    destruct (Z.ltb_spec stop start) as [H | H]; [| lia].
    assert (0 <= (start - stop - 1) / (- step)) by (apply Z.div_pos; lia). lia.
Qed.

Lemma range_len_step (start stop step : Z) :
  0 < step -> start < stop ->
  range_len start stop step = range_len (start + step) stop step + 1.
Proof.
  intros Hs Hlt. unfold range_len.
  destruct (Z.ltb_spec 0 step) as [_ | ?]; [| lia].
  destruct (Z.ltb_spec start stop) as [_ | ?]; [| lia].
  destruct (Z.ltb_spec (start + step) stop) as [Hin | Hout].
  - replace (stop - start - 1) with (stop - (start + step) - 1 + 1 * step) by lia.
    rewrite Z.div_add by lia. lia.
  - rewrite Z.div_small by lia. lia.
Qed.

Lemma range_elems_nil (start stop step : Z) :
  0 < step -> stop <= start -> range_elems start stop step = [].
Proof.
  intros Hs Hge. unfold range_elems, range_len.
  destruct (Z.ltb_spec 0 step) as [_ | ?]; [| lia].
  destruct (Z.ltb_spec start stop) as [? | _]; [lia |]. reflexivity.
Qed.

Lemma range_elems_cons (start stop step : Z) :
  0 < step -> start < stop ->
  range_elems start stop step = start :: range_elems (start + step) stop step.
Proof.
  intros Hs Hlt. unfold range_elems.
  rewrite (range_len_step start stop step Hs Hlt).
  pose proof (range_len_nonneg (start + step) stop step) as Hn.
  rewrite Z2Nat.inj_add by lia.
  change (Z.to_nat 1) with 1%nat. rewrite Nat.add_1_r.
  cbn [seq map]. f_equal; [lia |].
  rewrite <- seq_shift, map_map.
  apply map_ext. intros i. lia.
Qed.

Lemma range_nil (start stop : Z) : stop <= start -> range start stop = [].
Proof. intros H. apply range_elems_nil; lia. Qed.

Lemma range_cons (start stop : Z) :
  start < stop -> range start stop = start :: range (start + 1) stop.
Proof. intros H. apply range_elems_cons; lia. Qed.

(** Induction over the distance between the two ends of a range. *)
Lemma range_ind (stop : Z) (P : Z -> Prop) :
  (forall start, stop <= start -> P start) ->
  (forall start, start < stop -> P (start + 1) -> P start) ->
  forall start, P start.
Proof.
  intros Hnil Hcons start.
  remember (Z.to_nat (stop - start)) as n eqn:Hn.
  revert start Hn. induction n as [| n IH]; intros start Hn.
  - apply Hnil. lia.
  - apply Hcons; [lia |]. apply IH. lia.
Qed.

Lemma range_length (start stop : Z) :
  start <= stop -> Z.of_nat (List.length (range start stop)) = stop - start.
Proof.
  revert start. apply (range_ind stop (fun start =>
    start <= stop -> Z.of_nat (List.length (range start stop)) = stop - start)).
  - intros start Hge Hle. rewrite range_nil by lia. cbn. lia.
  - intros start Hlt IH _. rewrite range_cons by lia.
    cbn [List.length]. rewrite Nat2Z.inj_succ, IH by lia. lia.
Qed.

Lemma range_In (start stop y : Z) : In y (range start stop) <-> start <= y < stop.
Proof.
  revert start. apply (range_ind stop (fun start =>
    In y (range start stop) <-> start <= y < stop)).
  - intros start Hge. rewrite range_nil by lia. cbn. lia.
  - intros start Hlt IH. rewrite range_cons by lia. cbn [In]. rewrite IH. lia.
Qed.

Lemma range_app (start mid stop : Z) :
  start <= mid -> mid <= stop ->
  range start stop = range start mid ++ range mid stop.
Proof.
  intros Hsm Hms. revert start Hsm.
  apply (range_ind mid (fun start =>
    start <= mid -> range start stop = range start mid ++ range mid stop)).
  - intros start Hge Hle. assert (start = mid) by lia. subst.
    rewrite (range_nil mid mid) by lia. reflexivity.
  - intros start Hlt IH _.
    rewrite (range_cons start stop), (range_cons start mid) by lia.
    rewrite IH by lia. reflexivity.
Qed.

Lemma range_NoDup (start stop : Z) : NoDup (range start stop).
Proof.
  revert start. apply (range_ind stop (fun start => NoDup (range start stop))).
  - intros start Hge. rewrite range_nil by lia. constructor.
  - intros start Hlt IH. rewrite range_cons by lia. constructor; [| exact IH].
    rewrite range_In. lia.
Qed.

(* ===================================================================== *)
(** ** The windows of the file batcher *)

Lemma window_years_length (a b : Z) :
  a <= b -> Z.of_nat (List.length (window_years (a, b))) = b - a + 1.
Proof.
  intros H. unfold window_years. cbn [fst snd].
  rewrite range_length by lia. lia.
Qed.

(** The windows from a start [lo] inside the requested range, for a
    positive batch size. *)
Lemma windows_from_chained (batch hi : Z) :
  0 < batch ->
  forall (n : nat) (lo : Z),
    (Z.to_nat (hi + 1 - lo) <= n)%nat -> lo <= hi + 1 ->
    let wins :=
      map (fun year => (year, Z.min (year + batch - 1) hi))
          (range_elems lo (hi + 1) batch) in
    chained lo wins hi
    /\ Forall (fun win => snd win - fst win + 1 <= batch) wins.
Proof.
  intros Hb. induction n as [| n IH]; intros lo Hn Hlo; cbn zeta.
  - assert (lo = hi + 1) by lia. subst.
    rewrite range_elems_nil by lia. cbn. split; [reflexivity | constructor].
  - destruct (Z.eq_dec lo (hi + 1)) as [-> | Hne].
    { rewrite range_elems_nil by lia. cbn. split; [reflexivity | constructor]. }
    rewrite range_elems_cons by lia. cbn [map chained].
    destruct (Z_le_gt_dec (lo + batch) (hi + 1)) as [Hin | Hout].
    + destruct (IH (lo + batch)) as [Hc Hs]; [lia | lia |].
      rewrite Z.min_l by lia.
      replace (lo + batch - 1 + 1) with (lo + batch) by lia.
      split; [repeat split; try lia; exact Hc |].
      constructor; [cbn; lia | exact Hs].
    + rewrite (range_elems_nil (lo + batch)) by lia.
      rewrite Z.min_r by lia. cbn.
      split; [repeat split; lia |].
      constructor; [cbn; lia | constructor].
Qed.

Lemma chained_cover (wins : list (Z * Z)) :
  forall lo hi,
    chained lo wins hi ->
    lo <= hi + 1
    /\ List.concat (map window_years wins) = range lo (hi + 1).
Proof.
  induction wins as [| [a b] rest IH]; intros lo hi Hc; cbn in Hc.
  - subst. cbn. rewrite range_nil by lia. split; [lia | reflexivity].
  - destruct Hc as (-> & Hab & Hbh & Hrest).
    destruct (IH _ _ Hrest) as [Hle Heq].
    split; [lia |].
    cbn [map List.concat]. rewrite Heq. unfold window_years. cbn [fst snd].
    symmetry. apply range_app; lia.
Qed.

Lemma windows_chained (start_year years batch_size : Z) :
  0 < years -> 0 < batch_size ->
  chained start_year (windows start_year years batch_size)
          (start_year + years - 1)
  /\ Forall (fun win => snd win - fst win + 1 <= batch_size)
            (windows start_year years batch_size).
Proof.
  intros Hy Hb. unfold windows.
  pose proof (windows_from_chained batch_size (start_year + years - 1) Hb
                (Z.to_nat (start_year + years - 1 + 1 - start_year))
                start_year) as H.
  cbn zeta in H.
  replace (start_year + years - 1 + 1) with (start_year + years) in H by lia.
  apply H; lia.
Qed.

Lemma windows_empty (start_year years batch_size : Z) :
  years <= 0 -> 0 < batch_size -> windows start_year years batch_size = [].
Proof.
  intros Hy Hb. unfold windows. rewrite range_elems_nil by lia. reflexivity.
Qed.

(* ===================================================================== *)
(** ** Running the loops *)

Section Runs.
Context {L : Libraries}.

Lemma for_each_cons {A S : Type} (x : A) (xs : list A) (body : S -> A -> M S)
    (s : S) (w : world) :
  for_each (x :: xs) body s w =
  match body s x w with
  | (Return s', w') => for_each xs body s' w'
  | (Raise e, w') => (Raise e, w')
  end.
Proof. reflexivity. Qed.

Lemma world_eta (w : world) :
  mkWorld (csv_files w) (stdout w) (written w) (clock_reads w) = w.
Proof. destruct w; reflexivity. Qed.

Lemma printed_nil (w : world) : printed w [] = w.
Proof. unfold printed. rewrite app_nil_r. apply world_eta. Qed.

(** *** The loader *)

Lemma rows_loop_run (rows : list BirthdayRow) :
  forall (acc : list Birthday) (w : world),
    for_each rows
      (fun birthdays birthday_row =>
         y <- int_of (row_year birthday_row) ;;
         m <- int_of (row_month birthday_row) ;;
         d <- int_of (row_day birthday_row) ;;
         ret (birthdays ++ [mkBirthday (row_name birthday_row) y m d]))
      acc w =
    match parse_rows rows with
    | inl birthdays => (Return (acc ++ birthdays), w)
    | inr msg => (Raise (ValueError msg), w)
    end.
Proof.
  induction rows as [| row rest IH]; intros acc w.
  - cbn. rewrite app_nil_r. reflexivity.
  - rewrite for_each_cons. cbn [parse_rows]. unfold parse_row, bind, int_of.
    destruct (int (row_year row)) as [y | msg]; [| reflexivity].
    destruct (int (row_month row)) as [m | msg]; [| reflexivity].
    destruct (int (row_day row)) as [d | msg]; [| reflexivity].
    cbn. rewrite IH.
    destruct (parse_rows rest) as [birthdays | msg]; [| reflexivity].
    rewrite <- app_assoc. reflexivity.
Qed.

(** What the loader does, case by case. *)
Lemma read_lunar_birthdays_run (file_path : string) (w : world) :
  lunar_birthdays.read_lunar_birthdays file_path w =
  match csv_files w file_path with
  | None =>
      (Raise (SystemExit 1),
       printed w ["Error: File '" +++ file_path +++ "' not found."])
  | Some rows =>
      match parse_rows rows with
      | inl birthdays => (Return birthdays, w)
      | inr msg =>
          (Raise (SystemExit 1),
           printed w ["Error: Invalid data in CSV file. " +++ msg])
      end
  end.
Proof.
  unfold lunar_birthdays.read_lunar_birthdays, try_except, bind, open_csv.
  destruct (csv_files w file_path) as [rows |]; [| reflexivity].
  rewrite rows_loop_run.
  destruct (parse_rows rows) as [birthdays | msg]; reflexivity.
Qed.

Lemma main_read_lunar_birthdays_same :
  main.read_lunar_birthdays = lunar_birthdays.read_lunar_birthdays.
Proof. reflexivity. Qed.

Lemma parse_rows_unparsable (rows : list BirthdayRow) :
  Exists unparsable rows <-> exists msg, parse_rows rows = inr msg.
Proof.
  induction rows as [| row rest IH].
  - split; [intros H; inversion H | intros [msg H]; discriminate].
  - cbn [parse_rows]. rewrite Exists_cons, IH. unfold unparsable, parse_row.
    destruct (int (row_year row)) as [y | m1].
    2:{ split; [eauto | intros _; left; left; eauto]. }
    destruct (int (row_month row)) as [m | m2].
    2:{ split; [eauto | intros _; left; right; left; eauto]. }
    destruct (int (row_day row)) as [d | m3].
    2:{ split; [eauto | intros _; left; right; right; eauto]. }
    destruct (parse_rows rest) as [birthdays | msg].
    + split.
      * intros [[[? H] | [[? H] | [? H]]] | [? H]]; discriminate.
      * intros [? H]; discriminate.
    + split; [eauto | intros _; right; eauto].
Qed.

(** *** The batch generator *)

Lemma batch_events_app (ps qs : list (Birthday * Z)) :
  forall t,
    batch_events (ps ++ qs) t =
    batch_events ps t
    ++ batch_events qs (t + List.length (batch_events ps t)).
Proof.
  induction ps as [| [b y] ps IH]; intros t; cbn.
  - rewrite Nat.add_0_r. reflexivity.
  - destruct (project b y); [| apply IH].
    cbn. rewrite IH. do 3 f_equal. lia.
Qed.

Lemma failures_app (ps qs : list (Birthday * Z)) :
  failures (ps ++ qs) = failures ps ++ failures qs.
Proof. apply filter_app. Qed.

(** One turn of the inner loop of [generate_ics]. *)
Lemma visit_run (birthday : Birthday) (year : Z) (cal : Calendar) (w : world) :
  try_except
    (event <- lunar_birthdays.create_birthday_event birthday year ;;
     ret (add_component cal event))
    (fun e =>
       match e with
       | DateNotExist => print (lunar_birthdays.warning birthday) ;;; ret cal
       | _ => raise e
       end) w =
  match project birthday year with
  | Some d =>
      (Return (add_component cal (batch_event birthday d (now (clock_reads w)))),
       mkWorld (csv_files w) (stdout w) (written w) (S (clock_reads w)))
  | None => (Return cal, printed w [lunar_birthdays.warning birthday])
  end.
Proof.
  unfold try_except, bind, lunar_birthdays.create_birthday_event,
    lunar_to_solar, project.
  destruct (Lunar2Solar _) as [d |]; reflexivity.
Qed.

(** The inner loop: the years of one record. *)
Lemma years_loop_run (birthday : Birthday) (ys : list Z) :
  forall (cal : Calendar) (w : world),
    for_each ys
      (fun cal year =>
         try_except
           (event <- lunar_birthdays.create_birthday_event birthday year ;;
            ret (add_component cal event))
           (fun e =>
              match e with
              | DateNotExist =>
                  print (lunar_birthdays.warning birthday) ;;; ret cal
              | _ => raise e
              end))
      cal w =
    let ps := map (pair birthday) ys in
    (Return
       (mkCalendar (properties cal)
          (subcomponents cal ++ batch_events ps (clock_reads w))),
     mkWorld (csv_files w)
       (stdout w
        ++ map (fun p => lunar_birthdays.warning (fst p)) (failures ps))
       (written w)
       (clock_reads w + List.length (batch_events ps (clock_reads w)))).
Proof.
  induction ys as [| y ys IH]; intros cal w; cbn zeta.
  - cbn. rewrite !app_nil_r, Nat.add_0_r. destruct cal, w; reflexivity.
  - rewrite for_each_cons, visit_run.
    cbn [map batch_events failures filter fst snd].
    destruct (project birthday y) as [d |].
    + rewrite IH. cbn zeta. cbn [properties subcomponents add_component
        csv_files stdout written clock_reads List.length].
      rewrite <- app_assoc. cbn [app]. do 2 f_equal; try reflexivity. lia.
    + rewrite IH. cbn zeta. unfold printed.
      cbn [csv_files stdout written clock_reads map fst].
      rewrite <- app_assoc. reflexivity.
Qed.

(** The two loops of [generate_ics] together. *)
Lemma records_loop_run (start_year end_year : Z) (birthdays : list Birthday) :
  forall (cal : Calendar) (w : world),
    for_each birthdays
      (fun cal birthday =>
         for_each (range start_year (end_year + 1))
           (fun cal year =>
              try_except
                (event <- lunar_birthdays.create_birthday_event birthday year ;;
                 ret (add_component cal event))
                (fun e =>
                   match e with
                   | DateNotExist =>
                       print (lunar_birthdays.warning birthday) ;;; ret cal
                   | _ => raise e
                   end))
           cal)
      cal w =
    let ps := pairs birthdays start_year end_year in
    (Return
       (mkCalendar (properties cal)
          (subcomponents cal ++ batch_events ps (clock_reads w))),
     mkWorld (csv_files w)
       (stdout w
        ++ map (fun p => lunar_birthdays.warning (fst p)) (failures ps))
       (written w)
       (clock_reads w + List.length (batch_events ps (clock_reads w)))).
Proof.
  induction birthdays as [| b bs IH]; intros cal w; cbn zeta.
  - cbn. rewrite !app_nil_r, Nat.add_0_r. destruct cal, w; reflexivity.
  - rewrite for_each_cons, years_loop_run. cbv beta iota zeta.
    rewrite IH. cbv beta iota zeta.
    unfold pairs. cbn [list_prod].
    rewrite batch_events_app, failures_app, map_app.
    cbn [properties subcomponents csv_files stdout written clock_reads].
    rewrite <- !app_assoc, length_app.
    do 2 f_equal; try reflexivity. symmetry. apply Nat.add_assoc.
Qed.

(** What [generate_ics] does: it always returns, after one warning per
    failing pair and one file with the events of the other pairs. *)
Lemma generate_ics_run (birthdays : list Birthday) (output_file_path : string)
    (start_year end_year : Z) (w : world) :
  lunar_birthdays.generate_ics birthdays output_file_path start_year end_year w =
  let ps := pairs birthdays start_year end_year in
  (Return tt,
   mkWorld (csv_files w)
     (stdout w ++ map (fun p => lunar_birthdays.warning (fst p)) (failures ps))
     (written w
      ++ [(output_file_path,
           mkCalendar batch_header (batch_events ps (clock_reads w)))])
     (clock_reads w + List.length (batch_events ps (clock_reads w)))).
Proof.
  unfold lunar_birthdays.generate_ics. unfold bind at 1.
  rewrite records_loop_run. reflexivity.
Qed.

(** The window loop of [main]: it never fails, and adds one file per
    start, in order. *)
Lemma windows_loop_run (args : lunar_birthdays.Namespace)
    (lunar_birthdays : list Birthday) (starts : list Z) :
  forall w : world,
    exists w' : world,
      for_each starts
        (fun _ year =>
           lunar_birthdays.generate_ics lunar_birthdays (window_path args year)
             year (window_end args year) ;;;
           print ("ICS file generated successfully: " +++ window_path args year))
        tt w = (Return tt, w')
      /\ csv_files w' = csv_files w
      /\ map fst (written w') =
         map fst (written w) ++ map (window_path args) starts.
Proof.
  induction starts as [| year rest IH]; intros w.
  - exists w. cbn. rewrite app_nil_r. auto.
  - rewrite for_each_cons. unfold bind at 1.
    rewrite generate_ics_run. cbv zeta. unfold print at 1.
    cbn [csv_files stdout written clock_reads].
    match goal with
    | |- context [for_each rest _ tt ?w1] =>
        destruct (IH w1) as (w' & Hrun & Hcsv & Hw)
    end.
    exists w'. rewrite Hrun. split; [reflexivity |].
    split; [exact Hcsv |].
    rewrite Hw. cbn [written map]. rewrite map_app, <- app_assoc. reflexivity.
Qed.

Lemma single_year_window (a b : Z) :
  Nat.eqb (List.length (window_years (a, b))) 1 = (a =? b).
Proof.
  unfold window_years. cbn [fst snd].
  destruct (Z.eqb_spec a b) as [-> | Hne].
  - rewrite range_cons, range_nil by lia. reflexivity.
  - apply Nat.eqb_neq. intros Hlen.
    destruct (Z_le_gt_dec a b) as [Hle | Hgt].
    + pose proof (range_length a (b + 1)) as H. rewrite Hlen in H. lia.
    + rewrite range_nil in Hlen by lia. discriminate.
Qed.

Lemma window_file_name_eq (prefix : string) (a b : Z) :
  window_file_name prefix (a, b) =
  if a =? b then prefix +++ "_" +++ str a +++ ".ics"
  else prefix +++ "_" +++ str a +++ "-" +++ str b +++ ".ics".
Proof.
  unfold window_file_name. rewrite single_year_window. reflexivity.
Qed.

Lemma load_succeeds_parse (w : world) (path : string) :
  load_succeeds w path ->
  exists rows birthdays,
    csv_files w path = Some rows /\ parse_rows rows = inl birthdays.
Proof.
  intros (rows & Hfile & Hrows). exists rows.
  destruct (parse_rows rows) as [birthdays | msg] eqn:Hp.
  - exists birthdays. auto.
  - exfalso. assert (Exists unparsable rows) as Hex
      by (apply parse_rows_unparsable; eauto).
    apply Exists_exists in Hex. destruct Hex as (row & Hin & Hbad).
    rewrite Forall_forall in Hrows. exact (Hrows row Hin Hbad).
Qed.

Lemma load_fails_run (w : world) (path : string) :
  load_fails w path ->
  lunar_birthdays.read_lunar_birthdays path w =
  (Raise (SystemExit 1), printed w [load_error w path]).
Proof.
  intros Hfail. rewrite read_lunar_birthdays_run. unfold load_error.
  destruct Hfail as [Hnone | (rows & Hfile & Hbad)].
  - rewrite Hnone. reflexivity.
  - rewrite Hfile. apply parse_rows_unparsable in Hbad.
    destruct Hbad as [msg Hmsg]. rewrite Hmsg. reflexivity.
Qed.

(** *** The single-conversion generator *)

Lemma single_visit_run (birthday : Birthday) (cal : Calendar) (w : world) :
  try_except
    (event <- main.create_birthday_event birthday ;;
     ret (add_component cal event))
    (fun e =>
       match e with
       | DateNotExist => print (main.warning birthday) ;;; ret cal
       | _ => raise e
       end) w =
  match project birthday (birthday_year birthday) with
  | Some d =>
      (Return
         (add_component cal (recurring_event birthday d (now (clock_reads w)))),
       ticked w)
  | None => (Return cal, printed w [main.warning birthday])
  end.
Proof.
  unfold try_except, bind, main.create_birthday_event, lunar_to_solar, project.
  destruct (Lunar2Solar _) as [d |]; reflexivity.
Qed.

Lemma single_loop_run (birthdays : list Birthday) :
  forall (cal : Calendar) (w : world),
    for_each birthdays
      (fun cal birthday =>
         try_except
           (event <- main.create_birthday_event birthday ;;
            ret (add_component cal event))
           (fun e =>
              match e with
              | DateNotExist => print (main.warning birthday) ;;; ret cal
              | _ => raise e
              end))
      cal w =
    (Return
       (mkCalendar (properties cal)
          (subcomponents cal ++ recurring_events birthdays (clock_reads w))),
     mkWorld (csv_files w)
       (stdout w ++ map main.warning (own_year_failures birthdays))
       (written w)
       (clock_reads w
        + List.length (recurring_events birthdays (clock_reads w)))).
Proof.
  induction birthdays as [| b bs IH]; intros cal w.
  - cbn. rewrite !app_nil_r, Nat.add_0_r. destruct cal, w; reflexivity.
  - rewrite for_each_cons, single_visit_run.
    cbn [recurring_events own_year_failures filter].
    destruct (project b (birthday_year b)) as [d |].
    + rewrite IH. unfold ticked.
      cbn [properties subcomponents add_component csv_files stdout written
           clock_reads List.length].
      rewrite <- app_assoc. cbn [app]. do 2 f_equal; try reflexivity. lia.
    + rewrite IH. unfold printed.
      cbn [csv_files stdout written clock_reads map].
      rewrite <- app_assoc. reflexivity.
Qed.

Lemma generate_ics_file_run (birthdays : list Birthday)
    (output_file_path : string) (w : world) :
  main.generate_ics_file birthdays output_file_path w =
  (Return tt,
   mkWorld (csv_files w)
     (stdout w ++ map main.warning (own_year_failures birthdays))
     (written w
      ++ [(output_file_path,
           mkCalendar single_header
             (recurring_events birthdays (clock_reads w)))])
     (clock_reads w + List.length (recurring_events birthdays (clock_reads w)))).
Proof.
  unfold main.generate_ics_file. unfold bind at 1.
  rewrite single_loop_run. reflexivity.
Qed.

(** *** The two entry points *)

Lemma windows_of_args (args : lunar_birthdays.Namespace) :
  map (fun year => (year, window_end args year))
      (range_elems (lunar_birthdays.start_year args)
                   (lunar_birthdays.start_year args + lunar_birthdays.years args)
                   (lunar_birthdays.batch_size args)) =
  windows (lunar_birthdays.start_year args) (lunar_birthdays.years args)
          (lunar_birthdays.batch_size args).
Proof. reflexivity. Qed.

Lemma window_path_name (args : lunar_birthdays.Namespace) (year : Z) :
  window_path args year =
  window_file_name (lunar_birthdays.output_ics_prefix args)
                   (year, window_end args year).
Proof. rewrite window_file_name_eq. reflexivity. Qed.

(** [main] of the batch script when the load fails. *)
Lemma batch_main_load_fails (argv : lunar_birthdays.command_line) (w : world) :
  load_fails w (lunar_birthdays.given_input_csv argv) ->
  lunar_birthdays.main argv w =
  (Raise (SystemExit 1),
   printed (ticked w) [load_error w (lunar_birthdays.given_input_csv argv)]).
Proof.
  intros Hfail. unfold lunar_birthdays.main. unfold bind at 1.
  unfold datetime_now. fold (ticked w). unfold bind at 1.
  cbn [lunar_birthdays.parse_args lunar_birthdays.input_csv].
  rewrite (load_fails_run (ticked w)) by exact Hfail.
  reflexivity.
Qed.

(** [main] of the batch script when the load succeeds and the batch size
    is not zero. *)
Lemma batch_main_loaded (argv : lunar_birthdays.command_line) (w : world) :
  let args :=
    lunar_birthdays.parse_args (dt_year (now (clock_reads w))) argv in
  load_succeeds w (lunar_birthdays.input_csv args) ->
  lunar_birthdays.batch_size args <> 0 ->
  exists w' : world,
    lunar_birthdays.main argv w = (Return tt, w')
    /\ map fst (written w') =
       map fst (written w)
       ++ map (window_path args)
            (range_elems (lunar_birthdays.start_year args)
               (lunar_birthdays.start_year args + lunar_birthdays.years args)
               (lunar_birthdays.batch_size args)).
Proof.
  intros args Hload Hstep.
  destruct (load_succeeds_parse _ _ Hload) as (rows & birthdays & Hfile & Hparse).
  unfold lunar_birthdays.main. unfold bind at 1.
  unfold datetime_now. fold (ticked w). fold args. unfold bind at 1.
  rewrite read_lunar_birthdays_run.
  cbn [ticked csv_files]. rewrite Hfile, Hparse.
  unfold bind at 1. unfold range3.
  destruct (Z.eqb_spec (lunar_birthdays.batch_size args) 0) as [H0 | _];
    [contradiction |].
  unfold ret at 1.
  destruct (windows_loop_run args birthdays
              (range_elems (lunar_birthdays.start_year args)
                 (lunar_birthdays.start_year args + lunar_birthdays.years args)
                 (lunar_birthdays.batch_size args))
              (mkWorld (csv_files w) (stdout w) (written w) (S (clock_reads w))))
    as (w' & Hrun & _ & Hw).
  exists w'. split; [exact Hrun | exact Hw].
Qed.

(** [main] of the single-conversion script when the load fails. *)
Lemma single_main_load_fails (input_csv_path output_ics_path : string)
    (w : world) :
  load_fails w input_csv_path ->
  main.main input_csv_path output_ics_path w =
  (Raise (SystemExit 1), printed w [load_error w input_csv_path]).
Proof.
  intros Hfail. unfold main.main. unfold bind at 1.
  rewrite main_read_lunar_birthdays_same, load_fails_run by exact Hfail.
  reflexivity.
Qed.

End Runs.

(* ===================================================================== *)
(** ** Events, successes and failures *)

Section Counting.
Context {L : Libraries}.

Lemma successes_app (ps qs : list (Birthday * Z)) :
  successes (ps ++ qs) = successes ps ++ successes qs.
Proof. apply flat_map_app. Qed.

Lemma successes_In (ps : list (Birthday * Z)) (b : Birthday) (y : Z) (d : date) :
  In (b, y, d) (successes ps) <-> In (b, y) ps /\ project b y = Some d.
Proof.
  unfold successes. rewrite in_flat_map. split.
  - intros ([b' y'] & Hin & Hd). cbn [fst snd] in Hd.
    destruct (project b' y') as [d' |] eqn:Hp; [| contradiction].
    destruct Hd as [Heq | []]. inversion Heq; subst. auto.
  - intros [Hin Hp]. exists (b, y). split; [exact Hin |].
    cbn [fst snd]. rewrite Hp. left. reflexivity.
Qed.

Lemma pairs_In (birthdays : list Birthday) (start_year end_year : Z)
    (b : Birthday) (y : Z) :
  In (b, y) (pairs birthdays start_year end_year)
  <-> In b birthdays /\ start_year <= y <= end_year.
Proof. unfold pairs. rewrite in_prod_iff, range_In. intuition lia. Qed.

Lemma pairs_length (birthdays : list Birthday) (start_year end_year : Z) :
  start_year <= end_year ->
  Z.of_nat (List.length (pairs birthdays start_year end_year)) =
  Z.of_nat (List.length birthdays) * (end_year - start_year + 1).
Proof.
  intros Hle. unfold pairs.
  rewrite length_prod, Nat2Z.inj_mul, range_length by lia. lia.
Qed.

Lemma batch_events_unstamped (ps : list (Birthday * Z)) :
  forall t,
    map unstamped (batch_events ps t) =
    map (fun s => batch_event_fields (fst (fst s)) (snd s)) (successes ps).
Proof.
  induction ps as [| [b y] ps IH]; intros t; [reflexivity |].
  unfold successes. cbn [batch_events flat_map fst snd].
  destruct (project b y) as [d |]; [| apply IH].
  cbn [app map]. rewrite IH. reflexivity.
Qed.

Lemma batch_events_on (ps : list (Birthday * Z)) :
  forall t,
    Forall2 (fun s e => birthday_event_on (fst (fst s)) (snd s) e)
            (successes ps) (batch_events ps t).
Proof.
  induction ps as [| [b y] ps IH]; intros t; [constructor |].
  unfold successes. cbn [batch_events flat_map fst snd].
  destruct (project b y) as [d |]; [| apply IH].
  cbn [app]. constructor; [| apply IH].
  repeat split; reflexivity.
Qed.

Lemma batch_events_count (ps : list (Birthday * Z)) :
  forall t,
    (List.length (batch_events ps t) + List.length (failures ps)
     = List.length ps)%nat.
Proof.
  induction ps as [| [b y] ps IH]; intros t; [reflexivity |].
  cbn [batch_events failures filter fst snd].
  destruct (project b y) as [d |]; cbn [List.length].
  - rewrite <- (IH (S t)). reflexivity.
  - rewrite <- (IH t). unfold failures. lia.
Qed.

Lemma batch_events_successes_length (ps : list (Birthday * Z)) (t : nat) :
  List.length (batch_events ps t) = List.length (successes ps).
Proof.
  pose proof (batch_events_unstamped ps t) as H.
  apply (f_equal (@List.length _)) in H. rewrite !length_map in H. exact H.
Qed.

Lemma failures_In (ps : list (Birthday * Z)) (b : Birthday) (y : Z) :
  In (b, y) (failures ps) <-> In (b, y) ps /\ project b y = None.
Proof.
  unfold failures. rewrite filter_In. cbn [fst snd].
  destruct (project b y); intuition discriminate.
Qed.

Lemma successes_none (ps : list (Birthday * Z)) :
  (forall p, In p ps -> project (fst p) (snd p) = None) -> successes ps = [].
Proof.
  induction ps as [| p ps IH]; intros Hall; [reflexivity |].
  unfold successes. cbn [flat_map]. rewrite (Hall p) by (left; reflexivity).
  apply IH. intros q Hq. apply Hall. right. exact Hq.
Qed.

Lemma successes_all (ps : list (Birthday * Z)) :
  (forall p, In p ps -> project (fst p) (snd p) <> None) ->
  Forall2 (fun p s => s = (fst p, snd p, snd s)
                      /\ project (fst p) (snd p) = Some (snd s))
          ps (successes ps).
Proof.
  induction ps as [| p ps IH]; intros Hall; [constructor |].
  unfold successes. cbn [flat_map].
  destruct (project (fst p) (snd p)) as [d |] eqn:Hp.
  - cbn [app]. constructor; [cbn; auto |].
    apply IH. intros q Hq. apply Hall. right. exact Hq.
  - exfalso. exact (Hall p (or_introl eq_refl) Hp).
Qed.

Lemma recurring_events_on (birthdays : list Birthday) :
  forall t,
    Forall2
      (fun s e =>
         birthday_event_on (fst s) (snd s) e
         /\ get e "rrule" = Some (vRecur [("freq", "yearly")]))
      (own_year_successes birthdays) (recurring_events birthdays t).
Proof.
  induction birthdays as [| b bs IH]; intros t; [constructor |].
  unfold own_year_successes. cbn [recurring_events flat_map].
  destruct (project b (birthday_year b)) as [d |]; [| apply IH].
  cbn [app]. constructor; [| apply IH].
  repeat split; reflexivity.
Qed.

Lemma own_year_successes_In (birthdays : list Birthday) (b : Birthday) (d : date) :
  In (b, d) (own_year_successes birthdays)
  <-> In b birthdays /\ project b (birthday_year b) = Some d.
Proof.
  unfold own_year_successes. rewrite in_flat_map. split.
  - intros (b' & Hin & Hd).
    destruct (project b' (birthday_year b')) as [d' |] eqn:Hp; [| contradiction].
    destruct Hd as [Heq | []]. inversion Heq; subst. auto.
  - intros [Hin Hp]. exists b. split; [exact Hin |]. rewrite Hp. left. reflexivity.
Qed.

Lemma own_year_successes_length (birthdays : list Birthday) :
  (List.length (own_year_successes birthdays) <= List.length birthdays)%nat.
Proof.
  induction birthdays as [| b bs IH]; [constructor |].
  unfold own_year_successes. cbn [flat_map]. rewrite length_app.
  fold (own_year_successes bs).
  destruct (project b (birthday_year b)); cbn [List.length]; lia.
Qed.

End Counting.

(* ===================================================================== *)
(** ** Properties of the pipelines *)

Section Properties.
Context {L : Libraries}.

(** C2.  The batch generator always returns and always writes its file.
    The file holds, stamps aside, the events of the pairs whose
    projection succeeds, in order; a pair whose projection fails is
    left out and nothing else is: the events are those of the pairs
    before it followed by those of the pairs after it.  When every
    projection fails the file is written with no event. *)
Theorem C2_failed_projection_is_skipped :
  forall (birthdays : list Birthday) (output_file_path : string)
         (start_year end_year : Z) (w : world),
    let ps := pairs birthdays start_year end_year in
    exists (cal : Calendar) (w' : world),
      lunar_birthdays.generate_ics birthdays output_file_path
        start_year end_year w = (Return tt, w')
      /\ written w' = written w ++ [(output_file_path, cal)]
      /\ map unstamped (subcomponents cal)
         = map (fun s => batch_event_fields (fst (fst s)) (snd s))
               (successes ps)
      /\ (forall before b y after,
            ps = before ++ (b, y) :: after ->
            project b y = None ->
            successes ps = successes before ++ successes after)
      /\ ((forall p, In p ps -> project (fst p) (snd p) = None) ->
          subcomponents cal = []).
Proof.
  intros birthdays output_file_path start_year end_year w ps.
  rewrite generate_ics_run. cbv zeta. fold ps.
  eexists. eexists. split; [reflexivity |].
  cbn [written]. split; [reflexivity |]. cbn [subcomponents].
  split; [apply batch_events_unstamped |].
  split.
  - intros before b y after Heq Hnone. rewrite Heq, successes_app.
    f_equal. unfold successes at 1. cbn [flat_map fst snd].
    rewrite Hnone. reflexivity.
  - intros Hall. apply (proj1 (length_zero_iff_nil _)).
    rewrite batch_events_successes_length, (successes_none ps Hall).
    reflexivity.
Qed.

(** C3.  The events of the file the batch generator writes correspond
    one to one, in order, to the (record, year) pairs whose projection
    succeeds (a record counts once per place it has in the list): the
    event of a pair has the summary "<name>'s birthday", starts on the
    projected solar date and ends one day later.  The successful pairs
    are the records of the list with the years from [start_year] to
    [end_year] whose projection gives a date. *)
Theorem C3_one_event_per_successful_projection :
  forall (birthdays : list Birthday) (output_file_path : string)
         (start_year end_year : Z) (w : world),
    let ps := pairs birthdays start_year end_year in
    exists (cal : Calendar) (w' : world),
      lunar_birthdays.generate_ics birthdays output_file_path
        start_year end_year w = (Return tt, w')
      /\ written w' = written w ++ [(output_file_path, cal)]
      /\ Forall2 (fun s e => birthday_event_on (fst (fst s)) (snd s) e)
                 (successes ps) (subcomponents cal)
      /\ (forall b y d,
            In (b, y, d) (successes ps)
            <-> In b birthdays /\ start_year <= y <= end_year
                /\ project b y = Some d).
Proof.
  intros birthdays output_file_path start_year end_year w ps.
  rewrite generate_ics_run. cbv zeta. fold ps.
  eexists. eexists. split; [reflexivity |].
  cbn [written]. split; [reflexivity |]. cbn [subcomponents].
  split; [apply batch_events_on |].
  intros b y d. rewrite successes_In. subst ps. rewrite pairs_In. tauto.
Qed.

(** C5.  When every projection succeeds, the events of the file are
    those of the pairs (record, year) with the records in their order
    and, for each record, the years in increasing order.  For the
    records A, B and the years 2025 to 2026 that is A in 2025, A in
    2026, B in 2025, B in 2026. *)
Theorem C5_events_in_record_then_year_order :
  (forall (birthdays : list Birthday) (output_file_path : string)
          (start_year end_year : Z) (w : world),
     (forall b y, In b birthdays -> start_year <= y <= end_year ->
                  project b y <> None) ->
     exists (cal : Calendar) (w' : world),
       lunar_birthdays.generate_ics birthdays output_file_path
         start_year end_year w = (Return tt, w')
       /\ written w' = written w ++ [(output_file_path, cal)]
       /\ Forall2
            (fun p e =>
               exists d, project (fst p) (snd p) = Some d
                         /\ birthday_event_on (fst p) d e)
            (list_prod birthdays (range start_year (end_year + 1)))
            (subcomponents cal))
  /\ (forall (A B : Birthday) (output_file_path : string) (w : world),
        (forall b y, In b [A; B] -> 2025 <= y <= 2026 -> project b y <> None) ->
        exists (cal : Calendar) (w' : world),
          lunar_birthdays.generate_ics [A; B] output_file_path 2025 2026 w
          = (Return tt, w')
          /\ written w' = written w ++ [(output_file_path, cal)]
          /\ Forall2
               (fun p e =>
                  exists d, project (fst p) (snd p) = Some d
                            /\ birthday_event_on (fst p) d e)
               [(A, 2025); (A, 2026); (B, 2025); (B, 2026)]
               (subcomponents cal)).
Proof.
  assert (Hgen :
    forall (birthdays : list Birthday) (output_file_path : string)
           (start_year end_year : Z) (w : world),
      (forall b y, In b birthdays -> start_year <= y <= end_year ->
                   project b y <> None) ->
      exists (cal : Calendar) (w' : world),
        lunar_birthdays.generate_ics birthdays output_file_path
          start_year end_year w = (Return tt, w')
        /\ written w' = written w ++ [(output_file_path, cal)]
        /\ Forall2
             (fun p e =>
                exists d, project (fst p) (snd p) = Some d
                          /\ birthday_event_on (fst p) d e)
             (list_prod birthdays (range start_year (end_year + 1)))
             (subcomponents cal)).
  { intros birthdays output_file_path start_year end_year w Hall.
    rewrite generate_ics_run. cbv zeta.
    eexists. eexists. split; [reflexivity |].
    cbn [written]. split; [reflexivity |]. cbn [subcomponents].
    fold (pairs birthdays start_year end_year).
    set (ps := pairs birthdays start_year end_year).
    assert (Hps : forall p, In p ps -> project (fst p) (snd p) <> None).
    { intros [b y] Hin. apply pairs_In in Hin. cbn [fst snd].
      apply Hall; tauto. }
    pose proof (successes_all ps Hps) as Hsucc.
    pose proof (batch_events_on ps (clock_reads w)) as Hev.
    revert Hsucc Hev. generalize (batch_events ps (clock_reads w)).
    generalize (successes ps). clear.
    induction ps as [| p ps IH]; intros ss es Hsucc Hev.
    - inversion Hsucc; subst. inversion Hev; subst. constructor.
    - inversion Hsucc as [| p' s ps' ss' [Hs Hp] Hrest]; subst.
      inversion Hev as [| s' e ss'' es' He Hrest']; subst.
      constructor; [| apply (IH ss'); assumption].
      exists (snd s). split; [exact Hp |].
      rewrite Hs in He. cbn [fst snd] in He. exact He. }
  split; [exact Hgen |].
  intros A B output_file_path w Hall.
  destruct (Hgen [A; B] output_file_path 2025 2026 w Hall)
    as (cal & w' & Hrun & Hw & Hord).
  exists cal, w'. auto.
Qed.

(** C6.  For [start_year <= end_year], the file of the batch generator
    holds at most (number of records) x (end_year - start_year + 1)
    events, and fewer than that as soon as one projection fails. *)
Theorem C6_event_count_bound :
  forall (birthdays : list Birthday) (output_file_path : string)
         (start_year end_year : Z) (w : world),
    start_year <= end_year ->
    exists (cal : Calendar) (w' : world),
      lunar_birthdays.generate_ics birthdays output_file_path
        start_year end_year w = (Return tt, w')
      /\ written w' = written w ++ [(output_file_path, cal)]
      /\ Z.of_nat (List.length (subcomponents cal))
         <= Z.of_nat (List.length birthdays) * (end_year - start_year + 1)
      /\ ((exists b y, In b birthdays /\ start_year <= y <= end_year
                       /\ project b y = None) ->
          Z.of_nat (List.length (subcomponents cal))
          < Z.of_nat (List.length birthdays) * (end_year - start_year + 1)).
Proof.
  intros birthdays output_file_path start_year end_year w Hle.
  rewrite generate_ics_run. cbv zeta.
  eexists. eexists. split; [reflexivity |].
  cbn [written]. split; [reflexivity |]. cbn [subcomponents].
  set (ps := pairs birthdays start_year end_year).
  pose proof (batch_events_count ps (clock_reads w)) as Hcount.
  pose proof (pairs_length birthdays start_year end_year Hle) as Hlen.
  fold ps in Hlen. split; [lia |].
  intros (b & y & Hb & Hy & Hnone).
  assert (Hin : In (b, y) (failures ps)).
  { apply failures_In. split; [apply pairs_In; tauto | exact Hnone]. }
  destruct (failures ps) as [| f fs]; [contradiction |].
  cbn [List.length] in Hcount. lia.
Qed.

(** The warnings of the batch generator: one line per failing pair, in
    order, and the line of a pair is made of the fields of its record
    alone. *)
Lemma generate_ics_warnings (birthdays : list Birthday)
    (output_file_path : string) (start_year end_year : Z) (w : world) :
  stdout
    (snd (lunar_birthdays.generate_ics birthdays output_file_path
            start_year end_year w))
  = stdout w
    ++ map (fun p => lunar_birthdays.warning (fst p))
           (failures (pairs birthdays start_year end_year)).
Proof. rewrite generate_ics_run. reflexivity. Qed.

(** C7.  When the CSV file is missing, or one of its rows has a field
    that is not an integer, the loader does not return a list: it
    prints one line (that the file was not found, or that the data is
    invalid with the text of the error) and leaves with [sys.exit(1)].
    Both scripts then end with status 1 and have written no file. *)
Theorem C7_load_failure_aborts :
  forall (w : world) (path : string),
    load_fails w path ->
    lunar_birthdays.read_lunar_birthdays path w
    = (Raise (SystemExit 1), printed w [load_error w path])
    /\ main.read_lunar_birthdays path w
       = (Raise (SystemExit 1), printed w [load_error w path])
    /\ (forall argv : lunar_birthdays.command_line,
          lunar_birthdays.given_input_csv argv = path ->
          let r := lunar_birthdays.main argv w in
          exit_status (fst r) = 1
          /\ written (snd r) = written w
          /\ stdout (snd r) = stdout w ++ [load_error w path])
    /\ (forall program output_ics : string,
          let r := main.script [program; path; output_ics] w in
          exit_status (fst r) = 1
          /\ written (snd r) = written w
          /\ stdout (snd r) = stdout w ++ [load_error w path])
    /\ (csv_files w path = None ->
        load_error w path = "Error: File '" +++ path +++ "' not found.")
    /\ (forall rows, csv_files w path = Some rows ->
        exists msg,
          parse_rows rows = inr msg
          /\ load_error w path = "Error: Invalid data in CSV file. " +++ msg).
Proof.
  intros w path Hfail.
  split; [apply load_fails_run; exact Hfail |].
  split; [rewrite main_read_lunar_birthdays_same;
          apply load_fails_run; exact Hfail |].
  split.
  { intros argv Hpath r. subst r path.
    rewrite batch_main_load_fails by exact Hfail. cbn. auto. }
  split.
  { intros program output_ics r. subst r. unfold main.script.
    cbn [List.length Nat.eqb negb nth].
    rewrite single_main_load_fails by exact Hfail. cbn. auto. }
  split.
  { intros Hnone. unfold load_error. rewrite Hnone. reflexivity. }
  intros rows Hfile. unfold load_error. rewrite Hfile.
  destruct Hfail as [Hnone | (rows' & Hfile' & Hbad)]; [congruence |].
  assert (rows' = rows) by congruence. subst rows'.
  apply parse_rows_unparsable in Hbad. destruct Hbad as [msg Hmsg].
  exists msg. rewrite Hmsg. auto.
Qed.

(** C8.  When the load succeeds and the batch size is not zero, [main]
    of the batch script writes one file per window, in order, under the
    name the design gives the window: "<prefix>_<year>.ics" for a window
    of a single year, "<prefix>_<start>-<end>.ics" for any other. *)
Theorem C8_window_file_names :
  forall (argv : lunar_birthdays.command_line) (w : world),
    let args :=
      lunar_birthdays.parse_args (dt_year (now (clock_reads w))) argv in
    load_succeeds w (lunar_birthdays.input_csv args) ->
    lunar_birthdays.batch_size args <> 0 ->
    (exists w' : world,
       lunar_birthdays.main argv w = (Return tt, w')
       /\ map fst (written w')
          = map fst (written w)
            ++ map (window_file_name (lunar_birthdays.output_ics_prefix args))
                   (windows (lunar_birthdays.start_year args)
                            (lunar_birthdays.years args)
                            (lunar_birthdays.batch_size args)))
    /\ (forall prefix year,
          window_file_name prefix (year, year)
          = prefix +++ "_" +++ str year +++ ".ics")
    /\ (forall prefix year end_year,
          year <> end_year ->
          window_file_name prefix (year, end_year)
          = prefix +++ "_" +++ str year +++ "-" +++ str end_year +++ ".ics").
Proof.
  intros argv w args Hload Hstep.
  split; [| split].
  - destruct (batch_main_loaded argv w Hload Hstep) as (w' & Hrun & Hw).
    exists w'. split; [exact Hrun |]. rewrite Hw. f_equal.
    rewrite <- windows_of_args, map_map. apply map_ext.
    intros year. apply window_path_name.
  - intros prefix year. rewrite window_file_name_eq, Z.eqb_refl. reflexivity.
  - intros prefix year end_year Hne. rewrite window_file_name_eq.
    destruct (Z.eqb_spec year end_year); [contradiction | reflexivity].
Qed.

(** C9.  The single-conversion generator always writes its one file.
    Its events correspond one to one, in order, to the records whose
    projection into their own year succeeds: the event of a record is
    its birthday event on that solar date and carries the rule
    [freq = yearly].  There is at most one event per record. *)
Theorem C9_single_mode_one_recurring_event :
  forall (birthdays : list Birthday) (output_file_path : string) (w : world),
    exists (cal : Calendar) (w' : world),
      main.generate_ics_file birthdays output_file_path w = (Return tt, w')
      /\ written w' = written w ++ [(output_file_path, cal)]
      /\ Forall2
           (fun s e =>
              birthday_event_on (fst s) (snd s) e
              /\ get e "rrule" = Some (vRecur [("freq", "yearly")]))
           (own_year_successes birthdays) (subcomponents cal)
      /\ (forall b d,
            In (b, d) (own_year_successes birthdays)
            <-> In b birthdays /\ project b (birthday_year b) = Some d)
      /\ (List.length (subcomponents cal) <= List.length birthdays)%nat.
Proof.
  intros birthdays output_file_path w.
  rewrite generate_ics_file_run.
  eexists. eexists. split; [reflexivity |].
  cbn [written]. split; [reflexivity |]. cbn [subcomponents].
  pose proof (recurring_events_on birthdays (clock_reads w)) as Hon.
  split; [exact Hon |].
  split; [apply own_year_successes_In |].
  rewrite <- (Forall2_length Hon). apply own_year_successes_length.
Qed.

(** C10.  With a number of years that is not positive and a positive
    batch size there is no window: [main] of the batch script writes no
    file, and when the load succeeds it returns (status 0) having only
    read the clock, without a line printed. *)
Theorem C10_no_window_for_nonpositive_years :
  forall (argv : lunar_birthdays.command_line) (w : world),
    let args :=
      lunar_birthdays.parse_args (dt_year (now (clock_reads w))) argv in
    lunar_birthdays.years args <= 0 ->
    0 < lunar_birthdays.batch_size args ->
    windows (lunar_birthdays.start_year args) (lunar_birthdays.years args)
            (lunar_birthdays.batch_size args) = []
    /\ written (snd (lunar_birthdays.main argv w)) = written w
    /\ (load_succeeds w (lunar_birthdays.input_csv args) ->
        lunar_birthdays.main argv w = (Return tt, ticked w)
        /\ exit_status (fst (lunar_birthdays.main argv w)) = 0).
Proof.
  intros argv w args Hy Hb.
  pose proof (windows_empty (lunar_birthdays.start_year args)
                (lunar_birthdays.years args) (lunar_birthdays.batch_size args)
                Hy Hb) as Hnone.
  split; [exact Hnone |].
  assert (Hrun :
    lunar_birthdays.main argv w =
    match csv_files w (lunar_birthdays.input_csv args) with
    | None =>
        (Raise (SystemExit 1),
         printed (ticked w) [load_error w (lunar_birthdays.input_csv args)])
    | Some rows =>
        match parse_rows rows with
        | inl _ => (Return tt, ticked w)
        | inr _ =>
            (Raise (SystemExit 1),
             printed (ticked w) [load_error w (lunar_birthdays.input_csv args)])
        end
    end).
  { unfold lunar_birthdays.main. unfold bind at 1.
    unfold datetime_now. fold (ticked w). fold args. unfold bind at 1.
    rewrite read_lunar_birthdays_run. unfold load_error.
    cbn [ticked csv_files].
    destruct (csv_files w (lunar_birthdays.input_csv args)) as [rows |];
      [| reflexivity].
    destruct (parse_rows rows) as [birthdays | msg]; [| reflexivity].
    unfold bind at 1. unfold range3.
    destruct (Z.eqb_spec (lunar_birthdays.batch_size args) 0) as [H0 | _];
      [lia |].
    unfold ret at 1. rewrite range_elems_nil by lia. reflexivity. }
  split.
  - rewrite Hrun.
    destruct (csv_files w (lunar_birthdays.input_csv args)) as [rows |];
      [| reflexivity].
    destruct (parse_rows rows); reflexivity.
  - intros Hload.
    destruct (load_succeeds_parse _ _ Hload)
      as (rows & birthdays & Hfile & Hparse).
    rewrite Hrun, Hfile, Hparse. split; reflexivity.
Qed.

End Properties.

(* ===================================================================== *)
(** ** The properties on inputs *)

Section Samples.
Import sample.

Lemma rows_ok_load : load_succeeds (world_with rows_ok) "birthdays.csv".
Proof.
  exists rows_ok. split; [reflexivity |].
  repeat constructor;
    intros [[msg H] | [[msg H] | [msg H]]]; vm_compute in H; discriminate H.
Defined.

Lemma rows_bad_load : load_fails (world_with rows_bad) "birthdays.csv".
Proof.
  right. exists rows_bad. split; [reflexivity |].
  right. left. right. right.
  exists "invalid literal for int() with base 10: 'thirty'". reflexivity.
Defined.

(** C4: a run of the batch generator for Bob (born in the lunar year
    1985, eighth month, thirtieth day) over 2025 to 2027.  The
    projections into 2025 and 2027 fail; the two warnings are the same
    line, which names 1985 and neither of the years that failed. *)
Lemma C4_warning_names_birth_year :
  let r :=
    lunar_birthdays.generate_ics [bob] "out.ics" 2025 2027 (world_with []) in
  fst r = Return tt
  /\ failures (pairs [bob] 2025 2027) = [(bob, 2025); (bob, 2027)]
  /\ stdout (snd r)
     = [ "Warning: Invalid lunar date: 1985-8-30";
         "Warning: Invalid lunar date: 1985-8-30" ].
Proof. cbv zeta. repeat split; vm_compute; reflexivity. Qed.

Example window_file_names_120_50 :
  map (window_file_name "out") (windows 2024 120 50)
  = ["out_2024-2073.ics"; "out_2074-2123.ics"; "out_2124-2143.ics"].
Proof. reflexivity. Qed.

Example window_file_name_one_year :
  map (window_file_name "out") (windows 2024 1 50) = ["out_2024.ics"].
Proof. reflexivity. Qed.

Example batch_run_rows_bad :
  let r :=
    lunar_birthdays.main
      (lunar_birthdays.mkCommandLine "birthdays.csv" "out" None None None)
      (world_with rows_bad) in
  exit_status (fst r) = 1
  /\ written (snd r) = []
  /\ stdout (snd r)
     = ["Error: Invalid data in CSV file. "
        +++ "invalid literal for int() with base 10: 'thirty'"].
Proof. cbv zeta. repeat split; vm_compute; reflexivity. Qed.

Lemma C5_events_in_record_then_year_order_witness :
  exists (cal : Calendar) (w' : world),
    lunar_birthdays.generate_ics [alice; carol] "out.ics" 2025 2026
      (world_with [])
    = (Return tt, w')
    /\ written w' = written (world_with []) ++ [("out.ics", cal)]
    /\ Forall2
         (fun p e =>
            exists d, project (fst p) (snd p) = Some d
                      /\ birthday_event_on (fst p) d e)
         [(alice, 2025); (alice, 2026); (carol, 2025); (carol, 2026)]
         (subcomponents cal).
Proof.
  apply (proj2 C5_events_in_record_then_year_order).
  intros b y [<- | [<- | []]] Hy;
    assert (y = 2025 \/ y = 2026) as [-> | ->] by lia; discriminate.
Defined.

Lemma C6_event_count_bound_witness :
  2025 <= 2027
  /\ exists (cal : Calendar) (w' : world),
       lunar_birthdays.generate_ics [alice; bob] "out.ics" 2025 2027
         (world_with [])
       = (Return tt, w')
       /\ written w' = written (world_with []) ++ [("out.ics", cal)]
       /\ Z.of_nat (List.length (subcomponents cal))
          <= Z.of_nat (List.length [alice; bob]) * (2027 - 2025 + 1)
       /\ ((exists b y, In b [alice; bob] /\ 2025 <= y <= 2027
                        /\ project b y = None) ->
           Z.of_nat (List.length (subcomponents cal))
           < Z.of_nat (List.length [alice; bob]) * (2027 - 2025 + 1)).
Proof.
  split; [lia |].
  apply (C6_event_count_bound [alice; bob] "out.ics" 2025 2027 (world_with [])).
  lia.
Defined.

Lemma C7_load_failure_aborts_witness :
  load_fails (world_with rows_bad) "birthdays.csv"
  /\ lunar_birthdays.read_lunar_birthdays "birthdays.csv" (world_with rows_bad)
     = (Raise (SystemExit 1),
        printed (world_with rows_bad)
          [load_error (world_with rows_bad) "birthdays.csv"]).
Proof.
  split; [exact rows_bad_load |].
  exact (proj1 (C7_load_failure_aborts (world_with rows_bad) "birthdays.csv"
                  rows_bad_load)).
Defined.

Lemma C8_window_file_names_witness :
  exists w' : world,
    lunar_birthdays.main
      (lunar_birthdays.mkCommandLine "birthdays.csv" "out"
         (Some 4) (Some 2024) (Some 3))
      (world_with rows_ok)
    = (Return tt, w')
    /\ map fst (written w')
       = map fst (written (world_with rows_ok))
         ++ map (window_file_name "out") (windows 2024 4 3).
Proof.
  apply (proj1 (C8_window_file_names
                  (lunar_birthdays.mkCommandLine "birthdays.csv" "out"
                     (Some 4) (Some 2024) (Some 3))
                  (world_with rows_ok) rows_ok_load
                  ltac:(vm_compute; discriminate))).
Defined.

Lemma C10_no_window_for_nonpositive_years_witness :
  windows 2024 0 50 = []
  /\ written
       (snd (lunar_birthdays.main
               (lunar_birthdays.mkCommandLine "birthdays.csv" "out"
                  (Some 0) (Some 2024) None)
               (world_with rows_ok)))
     = written (world_with rows_ok).
Proof.
  pose proof (C10_no_window_for_nonpositive_years
                (lunar_birthdays.mkCommandLine "birthdays.csv" "out"
                   (Some 0) (Some 2024) None)
                (world_with rows_ok)
                ltac:(vm_compute; discriminate) ltac:(reflexivity)) as H.
  split; [exact (proj1 H) | exact (proj1 (proj2 H))].
Defined.

End Samples.

(* ===================================================================== *)
(** ** The complete runs of the two scripts *)

Section WholeRuns.
Context {L : Libraries}.

Lemma parse_rows_records (rows : list BirthdayRow) :
  forall birthdays,
    parse_rows rows = inl birthdays ->
    Forall2
      (fun row b =>
         birthday_name b = row_name row
         /\ int (row_year row) = inl (birthday_year b)
         /\ int (row_month row) = inl (birthday_month b)
         /\ int (row_day row) = inl (birthday_day b))
      rows birthdays.
Proof.
  induction rows as [| row rest IH]; intros birthdays Hp; cbn in Hp.
  - inversion Hp. constructor.
  - unfold parse_row in Hp.
    destruct (int (row_year row)) as [y |] eqn:Hy; [| discriminate].
    destruct (int (row_month row)) as [m |] eqn:Hm; [| discriminate].
    destruct (int (row_day row)) as [d |] eqn:Hd; [| discriminate].
    destruct (parse_rows rest) as [bs |]; [| discriminate].
    inversion Hp; subst. constructor; [cbn; auto | apply IH; reflexivity].
Qed.

Lemma parse_rows_parsable (rows : list BirthdayRow) (birthdays : list Birthday) :
  parse_rows rows = inl birthdays -> Forall (fun row => ~ unparsable row) rows.
Proof.
  intros Hp. apply Forall_Exists_neg. intros Hex.
  apply parse_rows_unparsable in Hex. destruct Hex as [msg Hmsg]. congruence.
Qed.

Lemma parse_rows_app_good (good : list BirthdayRow) :
  Forall (fun row => ~ unparsable row) good ->
  forall rest,
    parse_rows (good ++ rest) =
    match parse_rows good, parse_rows rest with
    | inl bs, inl bs' => inl (bs ++ bs')
    | inl _, inr msg => inr msg
    | inr msg, _ => inr msg
    end.
Proof.
  induction good as [| row good IH]; intros Hgood rest; cbn [app parse_rows].
  - destruct (parse_rows rest); reflexivity.
  - inversion Hgood; subst. rewrite IH by assumption.
    destruct (parse_row row); [| reflexivity].
    destruct (parse_rows good), (parse_rows rest); reflexivity.
Qed.



(** The window loop of [main], in full. *)
Lemma windows_loop_full (args : lunar_birthdays.Namespace)
    (birthdays : list Birthday) (starts : list Z) :
  forall w : world,
    for_each starts
      (fun _ year =>
         lunar_birthdays.generate_ics birthdays (window_path args year)
           year (window_end args year) ;;;
         print ("ICS file generated successfully: " +++ window_path args year))
      tt w =
    (Return tt,
     mkWorld (csv_files w)
       (stdout w ++ window_lines args birthdays starts)
       (written w ++ window_files args birthdays starts (clock_reads w))
       (clock_reads w
        + List.length
            (events_of (window_files args birthdays starts (clock_reads w))))).
Proof.
  induction starts as [| year rest IH]; intros w.
  - cbn. rewrite !app_nil_r, Nat.add_0_r. destruct w; reflexivity.
  - rewrite for_each_cons. unfold bind at 1.
    rewrite generate_ics_run. cbv zeta. unfold print at 1.
    cbn [csv_files stdout written clock_reads].
    rewrite IH.
    cbn [csv_files stdout written clock_reads window_files].
    unfold window_lines, events_of. cbn [flat_map snd subcomponents].
    rewrite length_app, <- !app_assoc. cbn [app].
    do 2 f_equal; try reflexivity. symmetry. apply Nat.add_assoc.
Qed.

(** [main] of the batch script, in full. *)
Lemma batch_main_run (argv : lunar_birthdays.command_line) (w : world) :
  let args :=
    lunar_birthdays.parse_args (dt_year (now (clock_reads w))) argv in
  lunar_birthdays.main argv w =
  match csv_files w (lunar_birthdays.input_csv args) with
  | None =>
      (Raise (SystemExit 1),
       printed (ticked w) [load_error w (lunar_birthdays.input_csv args)])
  | Some rows =>
      match parse_rows rows with
      | inr _ =>
          (Raise (SystemExit 1),
           printed (ticked w) [load_error w (lunar_birthdays.input_csv args)])
      | inl birthdays =>
          if lunar_birthdays.batch_size args =? 0 then
            (Raise (ValueError "range() arg 3 must not be zero"), ticked w)
          else
            (Return tt,
             mkWorld (csv_files w)
               (stdout w ++ window_lines args birthdays (window_starts args))
               (written w
                ++ window_files args birthdays (window_starts args)
                     (S (clock_reads w)))
               (S (clock_reads w)
                + List.length
                    (events_of
                       (window_files args birthdays (window_starts args)
                          (S (clock_reads w))))))
      end
  end.
Proof.
  intros args.
  unfold lunar_birthdays.main. unfold bind at 1.
  unfold datetime_now. fold (ticked w). fold args. unfold bind at 1.
  rewrite read_lunar_birthdays_run. unfold load_error.
  cbn [ticked csv_files].
  destruct (csv_files w (lunar_birthdays.input_csv args)) as [rows |];
    [| reflexivity].
  destruct (parse_rows rows) as [birthdays | msg]; [| reflexivity].
  unfold bind at 1. unfold range3.
  destruct (lunar_birthdays.batch_size args =? 0); [reflexivity |].
  unfold ret at 1.
  exact (windows_loop_full args birthdays (window_starts args)
           (mkWorld (csv_files w) (stdout w) (written w) (S (clock_reads w)))).
Qed.

(** [main] of the single-conversion script, in full. *)
Lemma single_main_run (input_csv_path output_ics_path : string) (w : world) :
  main.main input_csv_path output_ics_path w =
  match csv_files w input_csv_path with
  | None =>
      (Raise (SystemExit 1), printed w [load_error w input_csv_path])
  | Some rows =>
      match parse_rows rows with
      | inr _ =>
          (Raise (SystemExit 1), printed w [load_error w input_csv_path])
      | inl birthdays =>
          (Return tt,
           mkWorld (csv_files w)
             ((stdout w ++ map main.warning (own_year_failures birthdays))
              ++ ["ICS file generated successfully: " +++ output_ics_path])
             (written w
              ++ [(output_ics_path,
                   mkCalendar single_header
                     (recurring_events birthdays (clock_reads w)))])
             (clock_reads w
              + List.length (recurring_events birthdays (clock_reads w))))
      end
  end.
Proof.
  unfold main.main. unfold bind at 1.
  rewrite main_read_lunar_birthdays_same, read_lunar_birthdays_run.
  unfold load_error.
  destruct (csv_files w input_csv_path) as [rows |]; [| reflexivity].
  destruct (parse_rows rows) as [birthdays | msg]; [| reflexivity].
  unfold bind at 1. rewrite generate_ics_file_run. reflexivity.
Qed.

End WholeRuns.

(* ===================================================================== *)
(** ** More on events, stamps and windows *)

Section EventFacts.
Context {L : Libraries}.

Lemma batch_events_stamps (ps : list (Birthday * Z)) :
  forall t,
    map (fun e => get e "dtstamp") (batch_events ps t)
    = map (fun k => Some (vDatetime (now k)))
          (seq t (List.length (batch_events ps t))).
Proof.
  induction ps as [| [b y] ps IH]; intros t; [reflexivity |].
  cbn [batch_events]. destruct (project b y) as [d |]; [| apply IH].
  cbn [map List.length seq]. rewrite IH. reflexivity.
Qed.

Lemma batch_events_shape (ps : list (Birthday * Z)) :
  forall t,
    Forall
      (fun e =>
         map prop_name e = ["summary"; "dtstart"; "dtend"; "dtstamp"]
         /\ get e "rrule" = None)
      (batch_events ps t).
Proof.
  induction ps as [| [b y] ps IH]; intros t; [constructor |].
  cbn [batch_events]. destruct (project b y) as [d |]; [| apply IH].
  constructor; [split; reflexivity | apply IH].
Qed.

Lemma recurring_events_count (birthdays : list Birthday) :
  forall t,
    (List.length (recurring_events birthdays t)
     + List.length (own_year_failures birthdays)
     = List.length birthdays)%nat.
Proof.
  induction birthdays as [| b bs IH]; intros t; [reflexivity |].
  cbn [recurring_events own_year_failures filter].
  destruct (project b (birthday_year b)) as [d |]; cbn [List.length].
  - rewrite <- (IH (S t)). reflexivity.
  - rewrite <- (IH t). unfold own_year_failures. lia.
Qed.

Lemma own_year_failures_fail (birthdays : list Birthday) :
  Forall (fun b => Lunar2Solar (own_lunar_date b) = None)
         (own_year_failures birthdays).
Proof.
  apply Forall_forall. intros b Hin. unfold own_year_failures in Hin.
  apply filter_In in Hin. destruct Hin as [_ Hb].
  unfold project in Hb. unfold own_lunar_date.
  destruct (Lunar2Solar _); [discriminate | reflexivity].
Qed.

Lemma list_prod_nil_r {A B : Type} (l : list A) : list_prod l (@nil B) = [].
Proof. induction l as [| a l IH]; [reflexivity | exact IH]. Qed.

Lemma flat_map_of_map {A B C : Type} (f : B -> list C) (g : A -> B)
    (l : list A) :
  flat_map f (map g l) = flat_map (fun a => f (g a)) l.
Proof.
  induction l as [| a l IH]; [reflexivity |]. cbn. rewrite IH. reflexivity.
Qed.

(** Splitting the years in two splits the successful pairs in two, up to
    their order. *)
Lemma successes_prod_app (birthdays : list Birthday) (ys1 ys2 : list Z) :
  Permutation
    (successes (list_prod birthdays (ys1 ++ ys2)))
    (successes (list_prod birthdays ys1) ++ successes (list_prod birthdays ys2)).
Proof.
  induction birthdays as [| b bs IH]; [constructor |].
  cbn [list_prod]. rewrite map_app, !successes_app, <- !app_assoc.
  apply Permutation_app_head.
  rewrite IH.
  rewrite !app_assoc. apply Permutation_app_tail. apply Permutation_app_comm.
Qed.

(** The successful pairs of chained windows are those of the whole
    range, up to their order. *)
Lemma chained_successes (birthdays : list Birthday) (wins : list (Z * Z)) :
  forall lo hi,
    chained lo wins hi ->
    Permutation
      (flat_map (fun win => successes (pairs birthdays (fst win) (snd win)))
                wins)
      (successes (pairs birthdays lo hi)).
Proof.
  induction wins as [| [a b] rest IH]; intros lo hi Hc; cbn in Hc.
  - subst. unfold pairs. rewrite range_nil by lia.
    rewrite list_prod_nil_r. constructor.
  - destruct Hc as (-> & Hab & Hbh & Hrest).
    cbn [flat_map fst snd]. rewrite (IH _ _ Hrest).
    unfold pairs.
    rewrite (range_app lo (b + 1) (hi + 1)) by lia.
    symmetry. apply successes_prod_app.
Qed.

Lemma window_files_unstamped (args : lunar_birthdays.Namespace)
    (birthdays : list Birthday) (starts : list Z) :
  forall t,
    map unstamped (events_of (window_files args birthdays starts t))
    = flat_map
        (fun year =>
           map (fun s => batch_event_fields (fst (fst s)) (snd s))
               (successes (pairs birthdays year (window_end args year))))
        starts.
Proof.
  induction starts as [| year rest IH]; intros t; [reflexivity |].
  unfold events_of. cbn [window_files flat_map snd subcomponents].
  rewrite map_app, batch_events_unstamped. f_equal. apply IH.
Qed.

Lemma window_files_names (args : lunar_birthdays.Namespace)
    (birthdays : list Birthday) (starts : list Z) :
  forall t,
    map fst (window_files args birthdays starts t)
    = map (window_path args) starts.
Proof.
  induction starts as [| year rest IH]; intros t; [reflexivity |].
  cbn [window_files map fst]. f_equal. apply IH.
Qed.

Lemma window_files_empty_windows (args : lunar_birthdays.Namespace)
    (birthdays : list Birthday) (starts : list Z) :
  Forall (fun year => window_end args year < year) starts ->
  forall t,
    Forall (fun file => subcomponents (snd file) = [])
           (window_files args birthdays starts t).
Proof.
  induction starts as [| year rest IH]; intros Hall t; [constructor |].
  inversion Hall as [| ? ? Hyear Hrest]; subst.
  cbn [window_files].
  assert (Hnil : pairs birthdays year (window_end args year) = []).
  { unfold pairs. rewrite range_nil by lia. apply list_prod_nil_r. }
  rewrite Hnil. cbn [batch_events List.length].
  constructor; [reflexivity | apply IH; exact Hrest].
Qed.

Lemma range_elems_nil_neg (start stop step : Z) :
  step < 0 -> start <= stop -> range_elems start stop step = [].
Proof.
  intros Hs Hle. unfold range_elems, range_len.
  destruct (Z.ltb_spec 0 step) as [? | _]; [lia |].
  destruct (Z.ltb_spec step 0) as [_ | ?]; [| lia].
  destruct (Z.ltb_spec stop start) as [? | _]; [lia |]. reflexivity.
Qed.

Lemma windows_length (start_year years batch_size : Z) :
  0 < years -> 0 < batch_size ->
  Z.of_nat (List.length (windows start_year years batch_size))
  = (years - 1) / batch_size + 1.
Proof.
  intros Hy Hb. unfold windows, range_elems.
  rewrite !length_map, length_seq.
  pose proof (range_len_nonneg start_year (start_year + years) batch_size).
  rewrite Z2Nat.id by assumption. unfold range_len.
  destruct (Z.ltb_spec 0 batch_size) as [_ | ?]; [| lia].
  destruct (Z.ltb_spec start_year (start_year + years)) as [_ | ?]; [| lia].
  do 2 f_equal. lia.
Qed.

End EventFacts.

(* ===================================================================== *)
(** ** Further properties of the scripts *)

Section MoreProperties.
Context {L : Libraries}.

(** X1.  When the load succeeds the loader of either script returns one
    record per row, in the order of the rows, with the name of the row
    and the integers of its year, month and day; it prints nothing and
    leaves the world as it was.  (An empty file gives the empty
    list.) *)
Theorem loader_returns_rows_in_order :
  forall (w : world) (path : string),
    load_succeeds w path ->
    exists (rows : list BirthdayRow) (birthdays : list Birthday),
      csv_files w path = Some rows
      /\ lunar_birthdays.read_lunar_birthdays path w = (Return birthdays, w)
      /\ main.read_lunar_birthdays path w = (Return birthdays, w)
      /\ Forall2
           (fun row b =>
              birthday_name b = row_name row
              /\ int (row_year row) = inl (birthday_year b)
              /\ int (row_month row) = inl (birthday_month b)
              /\ int (row_day row) = inl (birthday_day b))
           rows birthdays.
Proof.
  intros w path Hload.
  destruct (load_succeeds_parse w path Hload) as (rows & bs & Hfile & Hp).
  exists rows, bs. split; [exact Hfile |].
  assert (Hrun :
    lunar_birthdays.read_lunar_birthdays path w = (Return bs, w)).
  { rewrite read_lunar_birthdays_run, Hfile, Hp. reflexivity. }
  split; [exact Hrun |]. split; [exact Hrun |].
  apply parse_rows_records. exact Hp.
Qed.

(** X2.  The loader stops at the first row with a bad field and reports
    the first bad field of that row, reading year, then month, then
    day: the rows before it were accepted, the rows after it are never
    looked at, and the line printed carries the text of that one
    error. *)
Theorem loader_reports_first_bad_field :
  forall (w : world) (path : string) (good : list BirthdayRow)
         (bad : BirthdayRow) (rest : list BirthdayRow) (msg : string),
    csv_files w path = Some (good ++ bad :: rest) ->
    Forall (fun row => ~ unparsable row) good ->
    (int (row_year bad) = inr msg
     \/ (exists y, int (row_year bad) = inl y /\ int (row_month bad) = inr msg)
     \/ (exists y m,
           int (row_year bad) = inl y /\ int (row_month bad) = inl m
           /\ int (row_day bad) = inr msg)) ->
    lunar_birthdays.read_lunar_birthdays path w
    = (Raise (SystemExit 1),
       printed w ["Error: Invalid data in CSV file. " +++ msg]).
Proof.
  intros w path good bad rest msg Hfile Hgood Hbad.
  rewrite read_lunar_birthdays_run, Hfile.
  rewrite (parse_rows_app_good good Hgood).
  destruct (parse_rows good) as [bs | m] eqn:Hg.
  2:{ exfalso. apply Forall_Exists_neg in Hgood. apply Hgood.
      apply parse_rows_unparsable. eauto. }
  cbn [parse_rows].
  assert (Hrow : parse_row bad = inr msg).
  { unfold parse_row.
    destruct Hbad as [Hy | [(y & Hy & Hm) | (y & m & Hy & Hm & Hd)]].
    - rewrite Hy. reflexivity.
    - rewrite Hy, Hm. reflexivity.
    - rewrite Hy, Hm, Hd. reflexivity. }
  rewrite Hrow. reflexivity.
Qed.

(** X3.  Every (record, year) pair of a run of the batch generator ends
    in exactly one of two ways, an event in the file or a warning on the
    standard output: events and warnings together are as many as records
    times years.  The clock is read once per event and never for a pair
    that fails. *)
Theorem batch_pair_gives_event_or_warning :
  forall (birthdays : list Birthday) (output_file_path : string)
         (start_year end_year : Z) (w : world),
    exists (cal : Calendar) (warnings : list string) (w' : world),
      lunar_birthdays.generate_ics birthdays output_file_path
        start_year end_year w = (Return tt, w')
      /\ written w' = written w ++ [(output_file_path, cal)]
      /\ stdout w' = stdout w ++ warnings
      /\ (List.length (subcomponents cal) + List.length warnings
          = List.length birthdays
            * List.length (range start_year (end_year + 1)))%nat
      /\ clock_reads w'
         = (clock_reads w + List.length (subcomponents cal))%nat.
Proof.
  intros birthdays output_file_path start_year end_year w.
  rewrite generate_ics_run. cbv zeta.
  eexists. eexists. eexists. split; [reflexivity |].
  cbn [written stdout clock_reads].
  split; [reflexivity |]. split; [reflexivity |].
  cbn [subcomponents]. split; [| reflexivity].
  rewrite length_map, batch_events_count. apply length_prod.
Qed.

(** X4.  The events of a file of the batch generator are stamped with
    consecutive readings of the clock, in the order of the events,
    starting with the first reading that the run makes. *)
Theorem batch_events_stamped_in_order :
  forall (birthdays : list Birthday) (output_file_path : string)
         (start_year end_year : Z) (w : world),
    exists (cal : Calendar) (w' : world),
      lunar_birthdays.generate_ics birthdays output_file_path
        start_year end_year w = (Return tt, w')
      /\ written w' = written w ++ [(output_file_path, cal)]
      /\ map (fun e => get e "dtstamp") (subcomponents cal)
         = map (fun k => Some (vDatetime (now k)))
               (seq (clock_reads w) (List.length (subcomponents cal))).
Proof.
  intros birthdays output_file_path start_year end_year w.
  rewrite generate_ics_run. cbv zeta.
  eexists. eexists. split; [reflexivity |].
  cbn [written]. split; [reflexivity |]. cbn [subcomponents].
  apply batch_events_stamps.
Qed.

(** X5.  What the batch generator produces does not depend on the world
    it starts in: from any two worlds, with the same records and years,
    the two files hold the same events, stamps aside, under the same
    header, and the same warnings are printed. *)
Theorem batch_generator_repeatable :
  forall (birthdays : list Birthday) (path1 path2 : string)
         (start_year end_year : Z) (w1 w2 : world),
    exists (cal1 cal2 : Calendar) (warnings : list string)
           (w1' w2' : world),
      lunar_birthdays.generate_ics birthdays path1 start_year end_year w1
      = (Return tt, w1')
      /\ lunar_birthdays.generate_ics birthdays path2 start_year end_year w2
         = (Return tt, w2')
      /\ written w1' = written w1 ++ [(path1, cal1)]
      /\ written w2' = written w2 ++ [(path2, cal2)]
      /\ properties cal1 = properties cal2
      /\ map unstamped (subcomponents cal1) = map unstamped (subcomponents cal2)
      /\ stdout w1' = stdout w1 ++ warnings
      /\ stdout w2' = stdout w2 ++ warnings.
Proof.
  intros birthdays path1 path2 start_year end_year w1 w2.
  rewrite !generate_ics_run. cbv zeta.
  do 5 eexists. split; [reflexivity |]. split; [reflexivity |].
  cbn [written stdout].
  split; [reflexivity |]. split; [reflexivity |].
  cbn [properties subcomponents]. split; [reflexivity |].
  split; [| split; reflexivity].
  rewrite !batch_events_unstamped. reflexivity.
Qed.

(** X6.  Every event of the batch script has exactly the properties
    summary, dtstart, dtend and dtstamp, in this order; it never
    carries a repeat rule.  The calendar around them has the properties
    prodid, version, calscale and charset. *)
Theorem batch_events_have_no_repeat_rule :
  forall (birthdays : list Birthday) (output_file_path : string)
         (start_year end_year : Z) (w : world),
    exists (cal : Calendar) (w' : world),
      lunar_birthdays.generate_ics birthdays output_file_path
        start_year end_year w = (Return tt, w')
      /\ written w' = written w ++ [(output_file_path, cal)]
      /\ map prop_name (properties cal)
         = ["prodid"; "version"; "calscale"; "charset"]
      /\ Forall
           (fun e =>
              map prop_name e = ["summary"; "dtstart"; "dtend"; "dtstamp"]
              /\ get e "rrule" = None)
           (subcomponents cal).
Proof.
  intros birthdays output_file_path start_year end_year w.
  rewrite generate_ics_run. cbv zeta.
  eexists. eexists. split; [reflexivity |].
  cbn [written]. split; [reflexivity |]. cbn [properties subcomponents].
  split; [reflexivity | apply batch_events_shape].
Qed.

(** X7.  In the single-conversion script every record ends in exactly
    one event or one warning, and a warning shows the lunar date that
    failed: the lines printed are those of lunar dates the conversion
    rejects, one per failing record, in the order of the records. *)
Theorem single_warnings_show_failed_date :
  forall (birthdays : list Birthday) (output_file_path : string) (w : world),
    exists (cal : Calendar) (failed : list Lunar) (w' : world),
      main.generate_ics_file birthdays output_file_path w = (Return tt, w')
      /\ written w' = written w ++ [(output_file_path, cal)]
      /\ stdout w' = stdout w ++ map warning_for failed
      /\ failed = map own_lunar_date (own_year_failures birthdays)
      /\ Forall (fun l => Lunar2Solar l = None) failed
      /\ (List.length (subcomponents cal) + List.length failed
          = List.length birthdays)%nat.
Proof.
  intros birthdays output_file_path w.
  rewrite generate_ics_file_run.
  eexists. exists (map own_lunar_date (own_year_failures birthdays)).
  eexists. split; [reflexivity |].
  cbn [written stdout]. split; [reflexivity |].
  split; [rewrite map_map; reflexivity |].
  split; [reflexivity |].
  split.
  - apply Forall_map. apply own_year_failures_fail.
  - cbn [subcomponents]. rewrite length_map. apply recurring_events_count.
Qed.

(** *** The scripts as a whole *)

Lemma read_returns (path : string) (birthdays : list Birthday) (w w' : world) :
  lunar_birthdays.read_lunar_birthdays path w = (Return birthdays, w') ->
  exists rows,
    csv_files w path = Some rows /\ parse_rows rows = inl birthdays.
Proof.
  rewrite read_lunar_birthdays_run.
  destruct (csv_files w path) as [rows |]; [| discriminate].
  destruct (parse_rows rows) as [bs | msg] eqn:Hp; [| discriminate].
  intros H. inversion H; subst. exists rows. auto.
Qed.

Lemma read_returns_load (path : string) (birthdays : list Birthday)
    (w w' : world) :
  lunar_birthdays.read_lunar_birthdays path w = (Return birthdays, w') ->
  load_succeeds w path.
Proof.
  intros H. destruct (read_returns _ _ _ _ H) as (rows & Hfile & Hp).
  exists rows. split; [exact Hfile | exact (parse_rows_parsable _ _ Hp)].
Qed.

Lemma batch_main_ok (argv : lunar_birthdays.command_line) (w w0 : world)
    (birthdays : list Birthday) :
  let args :=
    lunar_birthdays.parse_args (dt_year (now (clock_reads w))) argv in
  lunar_birthdays.read_lunar_birthdays (lunar_birthdays.input_csv args) w
  = (Return birthdays, w0) ->
  lunar_birthdays.batch_size args <> 0 ->
  lunar_birthdays.main argv w =
  (Return tt,
   mkWorld (csv_files w)
     (stdout w ++ window_lines args birthdays (window_starts args))
     (written w
      ++ window_files args birthdays (window_starts args) (S (clock_reads w)))
     (S (clock_reads w)
      + List.length
          (events_of
             (window_files args birthdays (window_starts args)
                (S (clock_reads w)))))).
Proof.
  intros args Hread Hstep.
  destruct (read_returns _ _ _ _ Hread) as (rows & Hfile & Hp).
  pose proof (batch_main_run argv w) as Hrun. cbv zeta in Hrun.
  fold args in Hrun. rewrite Hfile, Hp in Hrun.
  destruct (Z.eqb_spec (lunar_birthdays.batch_size args) 0);
    [contradiction | exact Hrun].
Qed.


(** X9.  When the single-conversion script is given two arguments and
    the load succeeds, it writes exactly one file, at its second
    argument, whose calendar has the properties prodid and version and
    at most one event per loaded record; the last line it prints
    announces that file. *)
Theorem single_script_writes_one_file :
  forall (program input_csv output_ics : string) (w : world)
         (birthdays : list Birthday),
    main.read_lunar_birthdays input_csv w = (Return birthdays, w) ->
    exists (cal : Calendar) (w' : world),
      main.script [program; input_csv; output_ics] w = (Return tt, w')
      /\ written w' = written w ++ [(output_ics, cal)]
      /\ map prop_name (properties cal) = ["prodid"; "version"]
      /\ (List.length (subcomponents cal) <= List.length birthdays)%nat
      /\ last (stdout w') ""
         = "ICS file generated successfully: " +++ output_ics.
Proof.
  intros program input_csv output_ics w birthdays Hread.
  rewrite main_read_lunar_birthdays_same in Hread.
  destruct (read_returns _ _ _ _ Hread) as (rows & Hfile & Hp).
  change (main.script [program; input_csv; output_ics] w)
    with (main.main input_csv output_ics w).
  rewrite single_main_run, Hfile, Hp.
  eexists. eexists. split; [reflexivity |].
  cbn [written stdout]. split; [reflexivity |].
  cbn [properties subcomponents]. split; [reflexivity |].
  split.
  - pose proof (recurring_events_count birthdays (clock_reads w)). lia.
  - apply last_last.
Qed.

(** X10.  For a command line that [argparse] has accepted, with a
    batch size of zero and a CSV file that loads: the run of the batch
    script ends on the [ValueError] of [range] (a step of zero), which
    nothing catches, so with status 1; this happens after the load,
    before any window, with no line printed and no file written. *)
Theorem zero_batch_size_ends_in_value_error :
  forall (argv : lunar_birthdays.command_line) (w : world),
    let args :=
      lunar_birthdays.parse_args (dt_year (now (clock_reads w))) argv in
    let r := lunar_birthdays.main argv w in
    lunar_birthdays.batch_size args = 0 ->
    load_succeeds w (lunar_birthdays.input_csv args) ->
    r = (Raise (ValueError "range() arg 3 must not be zero"), ticked w)
    /\ exit_status (fst r) = 1
    /\ stdout (snd r) = stdout w
    /\ written (snd r) = written w.
Proof.
  intros argv w args r H0 Hok. subst r.
  pose proof (batch_main_run argv w) as Hrun. cbv zeta in Hrun.
  fold args in Hrun. rewrite Hrun. clear Hrun.
  destruct (load_succeeds_parse _ _ Hok) as (rows & bs & Hfile & Hp).
  rewrite Hfile, Hp, H0. cbn. auto.
Qed.

Lemma range_elems_neg_nonempty (start stop step : Z) :
  step < 0 -> stop < start -> range_elems start stop step <> [].
Proof.
  intros Hs Hlt. unfold range_elems, range_len.
  destruct (Z.ltb_spec 0 step) as [? | _]; [lia |].
  destruct (Z.ltb_spec step 0) as [_ | ?]; [| lia].
  destruct (Z.ltb_spec stop start) as [_ | ?]; [| lia].
  assert (0 <= (start - stop - 1) / (- step)) by (apply Z.div_pos; lia).
  replace (Z.to_nat ((start - stop - 1) / - step + 1))
    with (S (Z.to_nat ((start - stop - 1) / - step))) by lia.
  discriminate.
Qed.

(** X11.  With a negative batch size the batch script still ends with
    status 0, and every file it writes is a calendar without events.
    It writes no file when the number of years is not negative, and at
    least one such empty file when it is. *)
Theorem negative_batch_size_gives_empty_files :
  forall (argv : lunar_birthdays.command_line) (w : world)
         (birthdays : list Birthday),
    let args :=
      lunar_birthdays.parse_args (dt_year (now (clock_reads w))) argv in
    lunar_birthdays.batch_size args < 0 ->
    lunar_birthdays.read_lunar_birthdays (lunar_birthdays.input_csv args) w
    = (Return birthdays, w) ->
    exists (files : list (string * Calendar)) (w' : world),
      lunar_birthdays.main argv w = (Return tt, w')
      /\ written w' = written w ++ files
      /\ Forall (fun file => subcomponents (snd file) = []) files
      /\ (0 <= lunar_birthdays.years args -> files = [])
      /\ (lunar_birthdays.years args < 0 -> files <> []).
Proof.
  intros argv w birthdays args Hneg Hread.
  pose proof (batch_main_ok argv w w birthdays Hread) as Hrun. cbv zeta in Hrun.
  fold args in Hrun. rewrite Hrun by lia. clear Hrun.
  eexists. eexists. split; [reflexivity |].
  cbn [written]. split; [reflexivity |].
  split; [| split].
  - apply window_files_empty_windows. apply Forall_forall.
    intros year _. unfold window_end. lia.
  - intros Hy. unfold window_starts.
    rewrite range_elems_nil_neg by lia. reflexivity.
  - intros Hy Hnil.
    apply (f_equal (map fst)) in Hnil. rewrite window_files_names in Hnil.
    apply map_eq_nil in Hnil.
    revert Hnil. apply range_elems_neg_nonempty; lia.
Qed.

(** X12.  Batching loses no event and adds none: for a positive number
    of years and a positive batch size, the events of all the files the
    batch script writes are, stamps aside and up to their order, the
    events of the successful (record, year) pairs of the whole range
    from [start_year] to [start_year + years - 1]. *)
Theorem batching_preserves_events :
  forall (argv : lunar_birthdays.command_line) (w : world)
         (birthdays : list Birthday),
    let args :=
      lunar_birthdays.parse_args (dt_year (now (clock_reads w))) argv in
    0 < lunar_birthdays.years args ->
    0 < lunar_birthdays.batch_size args ->
    lunar_birthdays.read_lunar_birthdays (lunar_birthdays.input_csv args) w
    = (Return birthdays, w) ->
    exists (files : list (string * Calendar)) (w' : world),
      lunar_birthdays.main argv w = (Return tt, w')
      /\ written w' = written w ++ files
      /\ Permutation
           (map unstamped (events_of files))
           (map (fun s => batch_event_fields (fst (fst s)) (snd s))
                (successes
                   (pairs birthdays (lunar_birthdays.start_year args)
                      (lunar_birthdays.start_year args
                       + lunar_birthdays.years args - 1)))).
Proof.
  intros argv w birthdays args Hy Hb Hread.
  pose proof (batch_main_ok argv w w birthdays Hread) as Hrun. cbv zeta in Hrun.
  fold args in Hrun. rewrite Hrun by lia. clear Hrun.
  eexists. eexists. split; [reflexivity |].
  cbn [written]. split; [reflexivity |].
  rewrite window_files_unstamped.
  destruct (windows_chained (lunar_birthdays.start_year args)
              (lunar_birthdays.years args) (lunar_birthdays.batch_size args)
              Hy Hb) as [Hc _].
  rewrite <- windows_of_args in Hc. fold (window_starts args) in Hc.
  pose proof (chained_successes birthdays _ _ _ Hc) as Hperm.
  rewrite flat_map_of_map in Hperm. cbn [fst snd] in Hperm.
  rewrite <- Hperm. clear.
  induction (window_starts args) as [| year rest IH]; [constructor |].
  cbn [flat_map]. rewrite map_app. apply Permutation_app_head. exact IH.
Qed.

(** X13.  Run without any option, the batch script writes exactly one
    file, for the fifty years that start with the current year, named
    "<prefix>_<year>-<year + 49>.ics"; it holds, stamps aside, the
    events of the successful pairs of those years. *)
Theorem default_run_writes_fifty_years :
  forall (argv : lunar_birthdays.command_line) (w : world)
         (birthdays : list Birthday),
    let current_year := dt_year (now (clock_reads w)) in
    lunar_birthdays.given_years argv = None ->
    lunar_birthdays.given_start_year argv = None ->
    lunar_birthdays.given_batch_size argv = None ->
    lunar_birthdays.read_lunar_birthdays
      (lunar_birthdays.given_input_csv argv) w
    = (Return birthdays, w) ->
    exists (cal : Calendar) (w' : world),
      lunar_birthdays.main argv w = (Return tt, w')
      /\ written w'
         = written w
           ++ [(lunar_birthdays.given_output_ics_prefix argv +++ "_"
                +++ str current_year +++ "-" +++ str (current_year + 49)
                +++ ".ics",
                cal)]
      /\ map unstamped (subcomponents cal)
         = map (fun s => batch_event_fields (fst (fst s)) (snd s))
               (successes (pairs birthdays current_year (current_year + 49))).
Proof.
  intros argv w birthdays current_year Hyears Hstart Hbatch Hread.
  pose proof (batch_main_ok argv w w birthdays Hread) as Hrun. cbv zeta in Hrun.
  fold current_year in Hrun.
  set (args := lunar_birthdays.parse_args current_year argv) in *.
  assert (Hy : lunar_birthdays.years args = 50)
    by (subst args; cbn; rewrite Hyears; reflexivity).
  assert (Hs : lunar_birthdays.start_year args = current_year)
    by (subst args; cbn; rewrite Hstart; reflexivity).
  assert (Hb : lunar_birthdays.batch_size args = 50)
    by (subst args; cbn; rewrite Hbatch; reflexivity).
  rewrite Hrun by lia. clear Hrun.
  assert (Hstarts : window_starts args = [current_year]).
  { unfold window_starts. rewrite Hy, Hs, Hb.
    rewrite range_elems_cons by lia. rewrite range_elems_nil by lia.
    reflexivity. }
  assert (Hend : window_end args current_year = current_year + 49)
    by (unfold window_end; rewrite Hy, Hs, Hb; lia).
  assert (Hpath :
    window_path args current_year
    = lunar_birthdays.given_output_ics_prefix argv +++ "_"
      +++ str current_year +++ "-" +++ str (current_year + 49) +++ ".ics").
  { unfold window_path. rewrite Hend.
    destruct (Z.eqb_spec current_year (current_year + 49)); [lia |].
    reflexivity. }
  rewrite Hstarts. cbn [window_files]. rewrite Hend, Hpath.
  eexists. eexists. split; [reflexivity |].
  cbn [written]. split; [reflexivity |]. cbn [subcomponents].
  apply batch_events_unstamped.
Qed.

(** X14.  The lines the batch script prints are, window after window,
    the warnings of the window followed by the line that announces its
    file: every file written is announced, after its own warnings and
    before those of the next window. *)
Theorem batch_main_prints_per_window :
  forall (argv : lunar_birthdays.command_line) (w : world)
         (birthdays : list Birthday),
    let args :=
      lunar_birthdays.parse_args (dt_year (now (clock_reads w))) argv in
    lunar_birthdays.batch_size args <> 0 ->
    lunar_birthdays.read_lunar_birthdays (lunar_birthdays.input_csv args) w
    = (Return birthdays, w) ->
    stdout (snd (lunar_birthdays.main argv w))
    = stdout w
      ++ flat_map
           (fun win =>
              map (fun p => lunar_birthdays.warning (fst p))
                  (failures (pairs birthdays (fst win) (snd win)))
              ++ ["ICS file generated successfully: "
                  +++ window_file_name
                        (lunar_birthdays.output_ics_prefix args) win])
           (windows (lunar_birthdays.start_year args)
                    (lunar_birthdays.years args)
                    (lunar_birthdays.batch_size args)).
Proof.
  intros argv w birthdays args Hstep Hread.
  pose proof (batch_main_ok argv w w birthdays Hread) as Hrun. cbv zeta in Hrun.
  fold args in Hrun. rewrite Hrun by exact Hstep. clear Hrun.
  cbn [snd stdout]. f_equal.
  rewrite <- windows_of_args, flat_map_of_map. fold (window_starts args).
  unfold window_lines. apply flat_map_ext. intros year. cbn [fst snd].
  rewrite window_path_name. reflexivity.
Qed.

(** X15.  For a positive number of years and a positive batch size the
    batch script writes [(years - 1) / batch_size + 1] files, that is
    years / batch_size rounded up. *)
Theorem batch_main_number_of_files :
  forall (argv : lunar_birthdays.command_line) (w : world)
         (birthdays : list Birthday),
    let args :=
      lunar_birthdays.parse_args (dt_year (now (clock_reads w))) argv in
    0 < lunar_birthdays.years args ->
    0 < lunar_birthdays.batch_size args ->
    lunar_birthdays.read_lunar_birthdays (lunar_birthdays.input_csv args) w
    = (Return birthdays, w) ->
    Z.of_nat (List.length (written (snd (lunar_birthdays.main argv w))))
    = Z.of_nat (List.length (written w))
      + ((lunar_birthdays.years args - 1) / lunar_birthdays.batch_size args + 1).
Proof.
  intros argv w birthdays args Hy Hb Hread.
  pose proof (batch_main_ok argv w w birthdays Hread) as Hrun. cbv zeta in Hrun.
  fold args in Hrun. rewrite Hrun by lia. clear Hrun.
  cbn [snd written]. rewrite length_app, Nat2Z.inj_add. f_equal.
  rewrite <- (length_map fst), window_files_names, length_map.
  rewrite <- (windows_length (lunar_birthdays.start_year args)) by assumption.
  rewrite <- windows_of_args, length_map. reflexivity.
Qed.

(** *** File names *)

Lemma uint_all_digits (u : Decimal.uint) :
  all_digits (NilEmpty.string_of_uint u) = true.
Proof. induction u; cbn; auto. Qed.

(** [str n] is a sign or a digit followed by digits only. *)
Lemma str_shape (n : Z) :
  exists c rest,
    str n = String c rest
    /\ all_digits rest = true
    /\ (c = "-"%char \/ is_digit c = true).
Proof.
  unfold str. destruct n as [| p | p]; cbn [Z.to_int NilZero.string_of_int].
  - exists "0"%char, "". auto.
  - pose proof (Unsigned.to_uint_nonnil p) as Hnil.
    pose proof (uint_all_digits (Pos.to_uint p)) as Hd.
    destruct (Pos.to_uint p); [contradiction | ..];
      cbn in Hd |- *; eexists; eexists; (split; [reflexivity |]); auto.
  - pose proof (Unsigned.to_uint_nonnil p) as Hnil.
    pose proof (uint_all_digits (Pos.to_uint p)) as Hd.
    exists "-"%char. eexists. split; [reflexivity |]. split; [| auto].
    destruct (Pos.to_uint p); [contradiction | ..]; exact Hd.
Qed.

Lemma str_inj (a b : Z) : str a = str b -> a = b.
Proof.
  intros H.
  assert (Hint : forall n,
            NilZero.int_of_string (str n) = Some (Z.to_int n)).
  { intros n. unfold str. apply NilZero.isi.
    - destruct n; cbn; try discriminate.
      intros Hn. inversion Hn as [Hu].
      exact (Unsigned.to_uint_nonnil _ Hu).
    - destruct n; cbn; try discriminate.
      intros Hn. inversion Hn as [Hu].
      exact (Unsigned.to_uint_nonnil _ Hu). }
  pose proof (Hint a) as Ha. rewrite H, Hint in Ha.
  inversion Ha as [Hz].
  rewrite <- (DecimalZ.of_to a), <- (DecimalZ.of_to b), Hz. reflexivity.
Qed.

Lemma digits_then_other (r1 : string) :
  forall r2 t1 t2,
    all_digits r1 = true -> all_digits r2 = true ->
    starts_without_digit t1 -> starts_without_digit t2 ->
    r1 +++ t1 = r2 +++ t2 -> r1 = r2.
Proof.
  induction r1 as [| c1 r1 IH]; intros r2 t1 t2 H1 H2 Ht1 Ht2 Heq.
  - destruct r2 as [| c2 r2]; [reflexivity |].
    destruct Ht1 as (c & rest & -> & Hc). cbn in Heq, H2.
    inversion Heq; subst. apply andb_prop in H2. destruct H2. congruence.
  - destruct r2 as [| c2 r2].
    + destruct Ht2 as (c & rest & -> & Hc). cbn in Heq, H1.
      inversion Heq; subst. apply andb_prop in H1. destruct H1. congruence.
    + cbn in Heq, H1, H2. inversion Heq; subst.
      apply andb_prop in H1. apply andb_prop in H2.
      f_equal. apply (IH r2 t1 t2); tauto.
Qed.

Lemma str_then_other (a b : Z) (t1 t2 : string) :
  starts_without_digit t1 -> starts_without_digit t2 ->
  str a +++ t1 = str b +++ t2 -> a = b.
Proof.
  intros Ht1 Ht2 Heq. apply str_inj.
  destruct (str_shape a) as (c1 & r1 & Ha & Hd1 & _).
  destruct (str_shape b) as (c2 & r2 & Hb & Hd2 & _).
  rewrite Ha, Hb in *. cbn in Heq. inversion Heq; subst.
  f_equal. apply (digits_then_other r1 r2 t1 t2); assumption.
Qed.

Lemma append_inj_l (p x y : string) : p +++ x = p +++ y -> x = y.
Proof.
  induction p as [| c p IH]; cbn; intros H; [exact H |].
  inversion H. auto.
Qed.

(** The path of a window tells its first year. *)
Lemma window_path_inj (args : lunar_birthdays.Namespace) (y1 y2 : Z) :
  window_path args y1 = window_path args y2 -> y1 = y2.
Proof.
  unfold window_path. intros H.
  assert (Hdot : starts_without_digit ".ics")
    by (exists "."%char, "ics"; auto).
  assert (Hdash : forall e, starts_without_digit ("-" +++ str e +++ ".ics"))
    by (intros e; exists "-"%char, (str e +++ ".ics"); auto).
  destruct (y1 =? window_end args y1), (y2 =? window_end args y2);
    apply append_inj_l in H; apply (append_inj_l "_") in H;
    (eapply str_then_other; [| | exact H]); auto.
Qed.

Lemma range_elems_NoDup (start stop step : Z) :
  step <> 0 -> NoDup (range_elems start stop step).
Proof.
  intros Hs. unfold range_elems.
  apply NoDup_map_NoDup_ForallPairs; [| apply seq_NoDup].
  intros i j _ _ Heq. nia.
Qed.

(** X16.  The files of one run of the batch script have pairwise
    different names: no window overwrites the file of another. *)
Theorem batch_files_have_distinct_names :
  forall (argv : lunar_birthdays.command_line) (w : world)
         (birthdays : list Birthday),
    let args :=
      lunar_birthdays.parse_args (dt_year (now (clock_reads w))) argv in
    lunar_birthdays.batch_size args <> 0 ->
    lunar_birthdays.read_lunar_birthdays (lunar_birthdays.input_csv args) w
    = (Return birthdays, w) ->
    exists (files : list (string * Calendar)) (w' : world),
      lunar_birthdays.main argv w = (Return tt, w')
      /\ written w' = written w ++ files
      /\ NoDup (map fst files).
Proof.
  intros argv w birthdays args Hstep Hread.
  pose proof (batch_main_ok argv w w birthdays Hread) as Hrun. cbv zeta in Hrun.
  fold args in Hrun. rewrite Hrun by exact Hstep. clear Hrun.
  eexists. eexists. split; [reflexivity |].
  cbn [written]. split; [reflexivity |].
  rewrite window_files_names.
  apply NoDup_map_NoDup_ForallPairs.
  - intros y1 y2 _ _. apply window_path_inj.
  - apply range_elems_NoDup. exact Hstep.
Qed.

Lemma window_files_contents (args : lunar_birthdays.Namespace)
    (birthdays : list Birthday) (starts : list Z) :
  forall t,
    Forall2
      (fun year file =>
         fst file = window_path args year
         /\ properties (snd file) = batch_header
         /\ map unstamped (subcomponents (snd file))
            = map (fun s => batch_event_fields (fst (fst s)) (snd s))
                  (successes (pairs birthdays year (window_end args year))))
      starts (window_files args birthdays starts t).
Proof.
  induction starts as [| year rest IH]; intros t; [constructor |].
  cbn [window_files]. constructor; [| apply IH].
  cbn [fst snd properties subcomponents].
  repeat split. apply batch_events_unstamped.
Qed.

(** X17.  With no record, or with [end_year] before [start_year], the
    batch generator still writes its file: a calendar with its header
    and no event; it prints nothing and does not read the clock. *)
Theorem batch_generator_on_empty_input :
  forall (birthdays : list Birthday) (output_file_path : string)
         (start_year end_year : Z) (w : world),
    birthdays = [] \/ end_year < start_year ->
    lunar_birthdays.generate_ics birthdays output_file_path
      start_year end_year w
    = (Return tt,
       mkWorld (csv_files w) (stdout w)
         (written w ++ [(output_file_path, mkCalendar batch_header [])])
         (clock_reads w)).
Proof.
  intros birthdays output_file_path start_year end_year w Hempty.
  rewrite generate_ics_run. cbv zeta.
  assert (Hnil : pairs birthdays start_year end_year = []).
  { destruct Hempty as [-> | Hlt]; [reflexivity |].
    unfold pairs. rewrite range_nil by lia. apply list_prod_nil_r. }
  rewrite Hnil. cbn [batch_events failures filter map List.length].
  rewrite app_nil_r, Nat.add_0_r. reflexivity.
Qed.

(** X18.  Each file the batch script writes holds the events of its own
    window and no other: the files correspond, in order, to the
    windows, and the file of a window has the name of the window, the
    header of the script and, stamps aside, the events of the
    successful (record, year) pairs with the year inside the window. *)
Theorem batch_file_holds_its_window :
  forall (argv : lunar_birthdays.command_line) (w : world)
         (birthdays : list Birthday),
    let args :=
      lunar_birthdays.parse_args (dt_year (now (clock_reads w))) argv in
    lunar_birthdays.batch_size args <> 0 ->
    lunar_birthdays.read_lunar_birthdays (lunar_birthdays.input_csv args) w
    = (Return birthdays, w) ->
    exists (files : list (string * Calendar)) (w' : world),
      lunar_birthdays.main argv w = (Return tt, w')
      /\ written w' = written w ++ files
      /\ Forall2
           (fun win file =>
              fst file
              = window_file_name (lunar_birthdays.output_ics_prefix args) win
              /\ properties (snd file) = batch_header
              /\ map unstamped (subcomponents (snd file))
                 = map (fun s => batch_event_fields (fst (fst s)) (snd s))
                       (successes (pairs birthdays (fst win) (snd win))))
           (windows (lunar_birthdays.start_year args)
                    (lunar_birthdays.years args)
                    (lunar_birthdays.batch_size args))
           files.
Proof.
  intros argv w birthdays args Hstep Hread.
  pose proof (batch_main_ok argv w w birthdays Hread) as Hrun. cbv zeta in Hrun.
  fold args in Hrun. rewrite Hrun by exact Hstep. clear Hrun.
  eexists. eexists. split; [reflexivity |].
  cbn [written]. split; [reflexivity |].
  rewrite <- windows_of_args. fold (window_starts args).
  pose proof (window_files_contents args birthdays (window_starts args)
                (S (clock_reads w))) as Hfiles.
  revert Hfiles.
  generalize (window_files args birthdays (window_starts args)
                (S (clock_reads w))).
  induction (window_starts args) as [| year rest IH]; intros files Hfiles;
    inversion Hfiles as [| ? file ? files' (Hname & Hhead & Hev) Hrest];
    subst; cbn [map]; constructor.
  - cbn [fst snd]. rewrite <- window_path_name. auto.
  - apply IH. exact Hrest.
Qed.

(** *** The windows of a run *)

Lemma for_each_map {A B S : Type} (g : A -> B) (body : S -> B -> M S)
    (xs : list A) :
  forall (s : S) (w : world),
    for_each (map g xs) body s w = for_each xs (fun s x => body s (g x)) s w.
Proof.
  induction xs as [| x xs IH]; intros s w; [reflexivity |].
  cbn [map]. rewrite !for_each_cons.
  destruct (body s (g x) w) as [[s' | e] w']; [apply IH | reflexivity].
Qed.

Lemma for_each_ext {A S : Type} (body1 body2 : S -> A -> M S) (xs : list A) :
  (forall s x w, body1 s x w = body2 s x w) ->
  forall (s : S) (w : world), for_each xs body1 s w = for_each xs body2 s w.
Proof.
  intros Hext. induction xs as [| x xs IH]; intros s w; [reflexivity |].
  rewrite !for_each_cons, Hext.
  destruct (body2 s x w) as [[s' | e] w']; [apply IH | reflexivity].
Qed.

Lemma window_files_by_window (args : lunar_birthdays.Namespace)
    (birthdays : list Birthday) (t : nat) :
  Forall2
    (fun win file =>
       fst file = window_file_name (lunar_birthdays.output_ics_prefix args) win
       /\ map unstamped (subcomponents (snd file))
          = map (fun s => batch_event_fields (fst (fst s)) (snd s))
                (successes (pairs birthdays (fst win) (snd win))))
    (windows (lunar_birthdays.start_year args) (lunar_birthdays.years args)
             (lunar_birthdays.batch_size args))
    (window_files args birthdays (window_starts args) t).
Proof.
  rewrite <- windows_of_args. fold (window_starts args).
  pose proof (window_files_contents args birthdays (window_starts args) t)
    as Hfiles.
  revert Hfiles.
  generalize (window_files args birthdays (window_starts args) t).
  induction (window_starts args) as [| year rest IH]; intros files Hfiles;
    inversion Hfiles as [| ? file ? files' (Hname & _ & Hev) Hrest];
    subst; cbn [map]; constructor.
  - cbn [fst snd]. rewrite <- window_path_name. auto.
  - apply IH. exact Hrest.
Qed.

(** [main], once the records are loaded, is the batch generator run
    once per window of [windows], in order, each run followed by the
    line that announces its file. *)
Lemma batch_main_by_window (argv : lunar_birthdays.command_line) (w : world)
    (birthdays : list Birthday) :
  let args :=
    lunar_birthdays.parse_args (dt_year (now (clock_reads w))) argv in
  lunar_birthdays.batch_size args <> 0 ->
  lunar_birthdays.read_lunar_birthdays (lunar_birthdays.input_csv args) w
  = (Return birthdays, w) ->
  lunar_birthdays.main argv w
  = for_each
      (windows (lunar_birthdays.start_year args) (lunar_birthdays.years args)
               (lunar_birthdays.batch_size args))
      (fun _ win =>
         lunar_birthdays.generate_ics birthdays
           (window_file_name (lunar_birthdays.output_ics_prefix args) win)
           (fst win) (snd win) ;;;
         print ("ICS file generated successfully: "
                +++ window_file_name
                      (lunar_birthdays.output_ics_prefix args) win))
      tt (ticked w).
Proof.
  intros args Hstep Hread.
  pose proof (batch_main_ok argv w w birthdays Hread) as Hrun. cbv zeta in Hrun.
  fold args in Hrun. rewrite Hrun by exact Hstep. clear Hrun.
  rewrite <- windows_of_args. fold (window_starts args).
  rewrite for_each_map. cbn [fst snd].
  rewrite (for_each_ext _
             (fun _ year =>
                lunar_birthdays.generate_ics birthdays (window_path args year)
                  year (window_end args year) ;;;
                print ("ICS file generated successfully: "
                       +++ window_path args year))).
  - rewrite windows_loop_full. reflexivity.
  - intros s year w0. rewrite <- window_path_name. reflexivity.
Qed.

(** C1.  For a positive number of years and a positive batch size, and
    once the records are loaded, [main] of the batch script is the batch
    generator run once per window, in order, and it writes one file per
    window, named after the window and holding, stamps aside, the
    events of the years of that window.  These windows follow one
    another from [start_year] to [start_year + years - 1] without gap
    or overlap, none is empty, each spans at most [batch_size] years,
    and their years listed in order are exactly the requested years,
    each once.  For 2024, 120 and 50 the windows are 2024-2073,
    2074-2123 and 2124-2143, and [main] writes the three files of these
    windows. *)
Theorem C1_windows_partition :
  (forall (argv : lunar_birthdays.command_line) (w : world)
          (birthdays : list Birthday),
     let args :=
       lunar_birthdays.parse_args (dt_year (now (clock_reads w))) argv in
     let wins :=
       windows (lunar_birthdays.start_year args) (lunar_birthdays.years args)
               (lunar_birthdays.batch_size args) in
     0 < lunar_birthdays.years args ->
     0 < lunar_birthdays.batch_size args ->
     lunar_birthdays.read_lunar_birthdays (lunar_birthdays.input_csv args) w
     = (Return birthdays, w) ->
     lunar_birthdays.main argv w
     = for_each wins
         (fun _ win =>
            lunar_birthdays.generate_ics birthdays
              (window_file_name (lunar_birthdays.output_ics_prefix args) win)
              (fst win) (snd win) ;;;
            print ("ICS file generated successfully: "
                   +++ window_file_name
                         (lunar_birthdays.output_ics_prefix args) win))
         tt (ticked w)
     /\ (exists (files : list (string * Calendar)) (w' : world),
           lunar_birthdays.main argv w = (Return tt, w')
           /\ written w' = written w ++ files
           /\ Forall2
                (fun win file =>
                   fst file
                   = window_file_name
                       (lunar_birthdays.output_ics_prefix args) win
                   /\ map unstamped (subcomponents (snd file))
                      = map (fun s => batch_event_fields (fst (fst s)) (snd s))
                            (successes
                               (pairs birthdays (fst win) (snd win))))
                wins files)
     /\ chained (lunar_birthdays.start_year args) wins
                (lunar_birthdays.start_year args
                 + lunar_birthdays.years args - 1)
     /\ Forall (fun win => snd win - fst win + 1
                           <= lunar_birthdays.batch_size args) wins
     /\ List.concat (map window_years wins)
        = range (lunar_birthdays.start_year args)
                (lunar_birthdays.start_year args + lunar_birthdays.years args)
     /\ NoDup (List.concat (map window_years wins)))
  /\ windows 2024 120 50 = [(2024, 2073); (2074, 2123); (2124, 2143)]
  /\ (forall (input_csv output_ics_prefix : string) (w : world)
             (birthdays : list Birthday),
        lunar_birthdays.read_lunar_birthdays input_csv w
        = (Return birthdays, w) ->
        exists (cal1 cal2 cal3 : Calendar) (w' : world),
          lunar_birthdays.main
            (lunar_birthdays.mkCommandLine input_csv output_ics_prefix
               (Some 120) (Some 2024) (Some 50))
            w
          = (Return tt, w')
          /\ written w'
             = written w
               ++ [ (output_ics_prefix +++ "_2024-2073.ics", cal1);
                    (output_ics_prefix +++ "_2074-2123.ics", cal2);
                    (output_ics_prefix +++ "_2124-2143.ics", cal3) ]
          /\ map unstamped (subcomponents cal1)
             = map (fun s => batch_event_fields (fst (fst s)) (snd s))
                   (successes (pairs birthdays 2024 2073))
          /\ map unstamped (subcomponents cal2)
             = map (fun s => batch_event_fields (fst (fst s)) (snd s))
                   (successes (pairs birthdays 2074 2123))
          /\ map unstamped (subcomponents cal3)
             = map (fun s => batch_event_fields (fst (fst s)) (snd s))
                   (successes (pairs birthdays 2124 2143))).
Proof.
  assert (Hfiles :
    forall (argv : lunar_birthdays.command_line) (w : world)
           (birthdays : list Birthday),
      let args :=
        lunar_birthdays.parse_args (dt_year (now (clock_reads w))) argv in
      lunar_birthdays.batch_size args <> 0 ->
      lunar_birthdays.read_lunar_birthdays (lunar_birthdays.input_csv args) w
      = (Return birthdays, w) ->
      exists (files : list (string * Calendar)) (w' : world),
        lunar_birthdays.main argv w = (Return tt, w')
        /\ written w' = written w ++ files
        /\ Forall2
             (fun win file =>
                fst file
                = window_file_name
                    (lunar_birthdays.output_ics_prefix args) win
                /\ map unstamped (subcomponents (snd file))
                   = map (fun s => batch_event_fields (fst (fst s)) (snd s))
                         (successes (pairs birthdays (fst win) (snd win))))
             (windows (lunar_birthdays.start_year args)
                      (lunar_birthdays.years args)
                      (lunar_birthdays.batch_size args))
             files).
  { intros argv w birthdays args Hstep Hread.
    pose proof (batch_main_ok argv w w birthdays Hread) as Hrun.
    cbv zeta in Hrun. fold args in Hrun. rewrite Hrun by exact Hstep.
    eexists. eexists. split; [reflexivity |].
    cbn [written]. split; [reflexivity |].
    apply window_files_by_window. }
  split; [| split; [reflexivity |]].
  - intros argv w birthdays args wins Hy Hb Hread.
    assert (Hne : lunar_birthdays.batch_size args <> 0) by lia.
    split; [apply batch_main_by_window; [exact Hne | exact Hread] |].
    split; [apply Hfiles; [exact Hne | exact Hread] |].
    destruct (windows_chained (lunar_birthdays.start_year args)
                (lunar_birthdays.years args) (lunar_birthdays.batch_size args)
                Hy Hb) as [Hc Hs].
    destruct (chained_cover _ _ _ Hc) as [_ Hcover].
    replace (lunar_birthdays.start_year args + lunar_birthdays.years args
             - 1 + 1)
      with (lunar_birthdays.start_year args + lunar_birthdays.years args)
      in Hcover by lia.
    repeat split; try assumption.
    subst wins. rewrite Hcover. apply range_NoDup.
  - intros input_csv output_ics_prefix w birthdays Hread.
    destruct (Hfiles
                (lunar_birthdays.mkCommandLine input_csv output_ics_prefix
                   (Some 120) (Some 2024) (Some 50))
                w birthdays ltac:(discriminate) Hread)
      as (files & w' & Hrun & Hw & Hall).
    cbn [lunar_birthdays.parse_args lunar_birthdays.given_years
         lunar_birthdays.given_start_year lunar_birthdays.given_batch_size
         lunar_birthdays.given_output_ics_prefix
         lunar_birthdays.start_year lunar_birthdays.years
         lunar_birthdays.batch_size lunar_birthdays.output_ics_prefix]
      in Hall.
    change (windows 2024 120 50)
      with [(2024, 2073); (2074, 2123); (2124, 2143)] in Hall.
    inversion Hall as [| ? [n1 c1] ? ? [Hn1 He1] Hall1]; subst.
    inversion Hall1 as [| ? [n2 c2] ? ? [Hn2 He2] Hall2]; subst.
    inversion Hall2 as [| ? [n3 c3] ? ? [Hn3 He3] Hall3]; subst.
    inversion Hall3; subst.
    cbn [fst snd] in *.
    exists c1, c2, c3, w'. split; [exact Hrun |].
    split; [| auto].
    rewrite Hw, Hn1, Hn2, Hn3. reflexivity.
Qed.

End MoreProperties.

(* ===================================================================== *)
(** ** The further properties on inputs *)

Section MoreSamples.
Import sample.

Lemma rows_ok_read :
  lunar_birthdays.read_lunar_birthdays "birthdays.csv" (world_with rows_ok)
  = (Return [alice; bob], world_with rows_ok).
Proof. reflexivity. Defined.

Lemma loader_returns_rows_in_order_witness :
  exists (rows : list BirthdayRow) (birthdays : list Birthday),
    csv_files (world_with rows_ok) "birthdays.csv" = Some rows
    /\ lunar_birthdays.read_lunar_birthdays "birthdays.csv" (world_with rows_ok)
       = (Return birthdays, world_with rows_ok)
    /\ main.read_lunar_birthdays "birthdays.csv" (world_with rows_ok)
       = (Return birthdays, world_with rows_ok)
    /\ Forall2
         (fun row b =>
            birthday_name b = row_name row
            /\ int (row_year row) = inl (birthday_year b)
            /\ int (row_month row) = inl (birthday_month b)
            /\ int (row_day row) = inl (birthday_day b))
         rows birthdays.
Proof.
  exact (loader_returns_rows_in_order (world_with rows_ok) "birthdays.csv"
           rows_ok_load).
Defined.

Lemma loader_reports_first_bad_field_witness :
  lunar_birthdays.read_lunar_birthdays "birthdays.csv" (world_with rows_bad)
  = (Raise (SystemExit 1),
     printed (world_with rows_bad)
       ["Error: Invalid data in CSV file. "
        +++ "invalid literal for int() with base 10: 'thirty'"]).
Proof.
  apply (loader_reports_first_bad_field (world_with rows_bad) "birthdays.csv"
           [mkRow "Alice" "1990" "1" "15"]
           (mkRow "Bob" "1985" "8" "thirty") []).
  - reflexivity.
  - repeat constructor.
    intros [[msg H] | [[msg H] | [msg H]]]; vm_compute in H; discriminate H.
  - right. right. exists 1985, 8. repeat split; reflexivity.
Defined.

Lemma single_script_writes_one_file_witness :
  exists (cal : Calendar) (w' : world),
    main.script ["main.py"; "birthdays.csv"; "out.ics"] (world_with rows_ok)
    = (Return tt, w')
    /\ written w' = written (world_with rows_ok) ++ [("out.ics", cal)]
    /\ map prop_name (properties cal) = ["prodid"; "version"]
    /\ (List.length (subcomponents cal) <= List.length [alice; bob])%nat
    /\ last (stdout w') ""
       = "ICS file generated successfully: " +++ "out.ics".
Proof.
  exact (single_script_writes_one_file "main.py" "birthdays.csv" "out.ics"
           (world_with rows_ok) [alice; bob] rows_ok_read).
Defined.

Lemma negative_batch_size_gives_empty_files_witness :
  exists (files : list (string * Calendar)) (w' : world),
    lunar_birthdays.main argv_backwards (world_with rows_ok) = (Return tt, w')
    /\ written w' = written (world_with rows_ok) ++ files
    /\ Forall (fun file => subcomponents (snd file) = []) files
    /\ (0 <= -3 -> files = [])
    /\ (-3 < 0 -> files <> []).
Proof.
  exact (negative_batch_size_gives_empty_files argv_backwards
           (world_with rows_ok) [alice; bob] eq_refl rows_ok_read).
Defined.

Lemma batching_preserves_events_witness :
  exists (files : list (string * Calendar)) (w' : world),
    lunar_birthdays.main argv_4_by_3 (world_with rows_ok) = (Return tt, w')
    /\ written w' = written (world_with rows_ok) ++ files
    /\ Permutation
         (map unstamped (events_of files))
         (map (fun s => batch_event_fields (fst (fst s)) (snd s))
              (successes (pairs [alice; bob] 2024 (2024 + 4 - 1)))).
Proof.
  exact (batching_preserves_events argv_4_by_3 (world_with rows_ok)
           [alice; bob] eq_refl eq_refl rows_ok_read).
Defined.

Lemma default_run_writes_fifty_years_witness :
  exists (cal : Calendar) (w' : world),
    lunar_birthdays.main argv_plain (world_with rows_ok) = (Return tt, w')
    /\ written w'
       = written (world_with rows_ok)
         ++ [("out" +++ "_" +++ str 2024 +++ "-" +++ str (2024 + 49)
              +++ ".ics", cal)]
    /\ map unstamped (subcomponents cal)
       = map (fun s => batch_event_fields (fst (fst s)) (snd s))
             (successes (pairs [alice; bob] 2024 (2024 + 49))).
Proof.
  exact (default_run_writes_fifty_years argv_plain (world_with rows_ok)
           [alice; bob] eq_refl eq_refl eq_refl rows_ok_read).
Defined.

Lemma batch_main_prints_per_window_witness :
  stdout (snd (lunar_birthdays.main argv_4_by_3 (world_with rows_ok)))
  = stdout (world_with rows_ok)
    ++ flat_map
         (fun win =>
            map (fun p => lunar_birthdays.warning (fst p))
                (failures (pairs [alice; bob] (fst win) (snd win)))
            ++ ["ICS file generated successfully: "
                +++ window_file_name "out" win])
         (windows 2024 4 3).
Proof.
  exact (batch_main_prints_per_window argv_4_by_3 (world_with rows_ok)
           [alice; bob] ltac:(discriminate) rows_ok_read).
Defined.

Lemma batch_main_number_of_files_witness :
  Z.of_nat
    (List.length
       (written (snd (lunar_birthdays.main argv_4_by_3 (world_with rows_ok)))))
  = Z.of_nat (List.length (written (world_with rows_ok)))
    + ((4 - 1) / 3 + 1).
Proof.
  exact (batch_main_number_of_files argv_4_by_3 (world_with rows_ok)
           [alice; bob] eq_refl eq_refl rows_ok_read).
Defined.

Lemma batch_files_have_distinct_names_witness :
  exists (files : list (string * Calendar)) (w' : world),
    lunar_birthdays.main argv_4_by_3 (world_with rows_ok) = (Return tt, w')
    /\ written w' = written (world_with rows_ok) ++ files
    /\ NoDup (map fst files).
Proof.
  exact (batch_files_have_distinct_names argv_4_by_3 (world_with rows_ok)
           [alice; bob] ltac:(discriminate) rows_ok_read).
Defined.

Lemma batch_generator_on_empty_input_witness :
  lunar_birthdays.generate_ics [alice; bob] "out.ics" 2025 2024 (world_with [])
  = (Return tt,
     mkWorld (csv_files (world_with [])) (stdout (world_with []))
       (written (world_with [])
        ++ [("out.ics", mkCalendar batch_header [])])
       (clock_reads (world_with []))).
Proof.
  apply (batch_generator_on_empty_input [alice; bob] "out.ics" 2025 2024
           (world_with [])).
  right. reflexivity.
Defined.

Lemma batch_file_holds_its_window_witness :
  exists (files : list (string * Calendar)) (w' : world),
    lunar_birthdays.main argv_4_by_3 (world_with rows_ok) = (Return tt, w')
    /\ written w' = written (world_with rows_ok) ++ files
    /\ Forall2
         (fun win file =>
            fst file = window_file_name "out" win
            /\ properties (snd file) = batch_header
            /\ map unstamped (subcomponents (snd file))
               = map (fun s => batch_event_fields (fst (fst s)) (snd s))
                     (successes (pairs [alice; bob] (fst win) (snd win))))
         (windows 2024 4 3)
         files.
Proof.
  exact (batch_file_holds_its_window argv_4_by_3 (world_with rows_ok)
           [alice; bob] ltac:(discriminate) rows_ok_read).
Defined.

Lemma zero_batch_size_ends_in_value_error_witness :
  let r :=
    lunar_birthdays.main
      (lunar_birthdays.mkCommandLine "birthdays.csv" "out"
         None (Some 2024) (Some 0))
      (world_with rows_ok) in
  r = (Raise (ValueError "range() arg 3 must not be zero"),
       ticked (world_with rows_ok))
  /\ exit_status (fst r) = 1
  /\ stdout (snd r) = stdout (world_with rows_ok)
  /\ written (snd r) = written (world_with rows_ok).
Proof.
  exact (zero_batch_size_ends_in_value_error
           (lunar_birthdays.mkCommandLine "birthdays.csv" "out"
              None (Some 2024) (Some 0))
           (world_with rows_ok) eq_refl rows_ok_load).
Defined.

Lemma C1_windows_partition_witness :
  lunar_birthdays.main argv_4_by_3 (world_with rows_ok)
  = for_each (windows 2024 4 3)
      (fun _ win =>
         lunar_birthdays.generate_ics [alice; bob]
           (window_file_name "out" win) (fst win) (snd win) ;;;
         print ("ICS file generated successfully: "
                +++ window_file_name "out" win))
      tt (ticked (world_with rows_ok))
  /\ chained 2024 (windows 2024 4 3) (2024 + 4 - 1)
  /\ Forall (fun win => snd win - fst win + 1 <= 3) (windows 2024 4 3)
  /\ List.concat (map window_years (windows 2024 4 3)) = range 2024 (2024 + 4)
  /\ NoDup (List.concat (map window_years (windows 2024 4 3))).
Proof.
  pose proof (proj1 C1_windows_partition argv_4_by_3 (world_with rows_ok)
                [alice; bob] eq_refl eq_refl rows_ok_read) as H.
  split; [exact (proj1 H) | exact (proj2 (proj2 H))].
Defined.

End MoreSamples.
